(** * Trivia API: the request-handling core of [flaskr/__init__.py]

    A shallow embedding of the pagination engine, the category aggregator,
    the search filter and the quiz selector, together with the handlers
    built on them and the error handlers, and the properties of the design
    document that can be settled on them.

    Conventions.
    - Python integers are [Z]; [len] is the length of a list as a [Z].
    - Python text is [string]; the builtins [int] and [str.lower], whose
      Unicode behaviour is outside this program, are parameters of the
      development (Section variables), instantiated for the examples by a
      decimal reader and by ASCII case folding.
    - A handler finishes in one of four ways, see [outcome].
    - [random.randint] reads an entropy stream; the rejection loop of the
      quiz is run with a bound on the number of redraws. *)

From Stdlib Require Import ZArith List String Ascii Bool Lia Sorted.
From Stdlib Require Import DecimalString DecimalZ.
Import ListNotations.

Local Open Scope string_scope.
Local Open Scope list_scope.
Local Open Scope Z_scope.

(** ** How a handler finishes *)

Inductive exn : Type :=
| ValueError
| TypeError
| KeyError
| AttributeError
| IndexError.

Inductive outcome (A : Type) : Type :=
| Return (a : A)          (* the handler returns [a] *)
| Abort (status : Z)      (* flask's [abort(status)] *)
| Raise (e : exn)         (* an exception nobody catches *)
| Spinning.               (* the redraw bound was reached inside a loop *)

Arguments Return {A} a.
Arguments Abort {A} status.
Arguments Raise {A} e.
Arguments Spinning {A}.

Definition bind {A B : Type} (m : outcome A) (k : A -> outcome B) : outcome B :=
  match m with
  | Return a => k a
  | Abort s => Abort s
  | Raise e => Raise e
  | Spinning => Spinning
  end.

Notation "x <- m ;; k" := (bind m (fun x => k))
  (at level 61, m at next level, right associativity).

(** ** Python builtins on lists and integers *)

Definition len {A : Type} (l : list A) : Z := Z.of_nat (List.length l).

(** The index adjustment of a slice bound: a negative bound counts from the
    end, and every bound is clipped to [0, n]. *)
Definition adjust_index (n i : Z) : Z :=
  if i <? 0 then Z.max 0 (i + n) else Z.min i n.

(** [l[start:stop]] *)
Definition py_slice {A : Type} (l : list A) (start stop : Z) : list A :=
  let lo := adjust_index (len l) start in
  let hi := adjust_index (len l) stop in
  firstn (Z.to_nat (hi - lo)) (skipn (Z.to_nat lo) l).

(** [l[i]]: negative indices count from the end, anything else out of range
    raises [IndexError]. *)
Definition py_index {A : Type} (l : list A) (i : Z) : outcome A :=
  let j := if i <? 0 then i + len l else i in
  if (j <? 0) || (len l <=? j) then Raise IndexError
  else match nth_error l (Z.to_nat j) with
       | Some x => Return x
       | None => Raise IndexError
       end.

(** [str(z)] for an integer: decimal digits, with a minus sign when
    negative. *)
Definition py_str (z : Z) : string := NilEmpty.string_of_int (Z.to_int z).

(** [x in l] for a list. *)
Definition mem_Z (x : Z) (l : list Z) : bool := existsb (Z.eqb x) l.
Definition mem_string (x : string) (l : list string) : bool :=
  existsb (String.eqb x) l.

(** [a in b] for two strings: [a] occurs in [b] as a contiguous block. *)
Fixpoint contains (a b : string) : bool :=
  prefix a b ||
  match b with
  | EmptyString => false
  | String _ b' => contains a b'
  end.

(** [random.randint(a, b)]: an integer of [a..b] taken from one word of
    entropy, [ValueError] when the range is empty. *)
Definition randint (a b : Z) (entropy : Z) : outcome Z :=
  if b <? a then Raise ValueError
  else Return (a + entropy mod (b - a + 1)).

(** ** Records of the store *)

Module Question.

(** Modelled from the spec: the [Question] model of [models.py], which is
    not part of the sources at hand.  Section 3 of the design gives its
    attributes: a store-assigned unique [id], the [question] and [answer]
    texts, an integer [difficulty] and a [category] identifier. *)
Record t : Type := make {
  id : Z;
  question : string;
  answer : string;
  difficulty : Z;
  category : Z
}.

(** The mapping that [format()] returns; [category] is text there. *)
Record formatted : Type := make_formatted {
  f_id : Z;
  f_question : string;
  f_answer : string;
  f_category : string;
  f_difficulty : Z
}.

(** Modelled from the spec: [Question.format] of [models.py]: "a plain
    mapping of these five fields with [category] coerced to its string
    representation". *)
Definition format (q : t) : formatted :=
  {| f_id := id q;
     f_question := question q;
     f_answer := answer q;
     f_category := py_str (category q);
     f_difficulty := difficulty q |}.

End Question.

Module Category.

(** Modelled from the spec: the [Category] model of [models.py]: a
    store-assigned unique [id] and a display name [type]. *)
Record t : Type := make {
  id : Z;
  type : string
}.

End Category.

(** Modelled from the spec: the record store behind [Question.query] and
    [Category.query]: two tables, enumerated in a fixed order, and the next
    identifier the question table hands out. *)
Record Store : Type := {
  questions : list Question.t;
  categories : list Category.t;
  next_id : Z
}.

(** ** The request *)

(** [request.args] and the part of the JSON body each handler reads are
    kept apart; the bodies are declared with their handlers. *)
Record Request : Type := {
  args : list (string * string)
}.

Fixpoint assoc (key : string) (l : list (string * string)) : option string :=
  match l with
  | [] => None
  | (k, v) :: l' => if String.eqb key k then Some v else assoc key l'
  end.

Definition QUESTIONS_PER_PAGE : Z := 10.

Section Pagination.

(** Python's [int] on text: [None] stands for [ValueError]. *)
Variable int_of_text : string -> option Z.

(** [request.args.get(key, default, type=int)]: the default when the key
    is absent, and also when its value does not convert. *)
Definition args_get_int (request : Request) (key : string) (default : Z) : Z :=
  match assoc key (args request) with
  | None => default
  | Some v =>
      match int_of_text v with
      | Some z => z
      | None => default
      end
  end.

Definition requested_page (request : Request) : Z :=
  args_get_int request "page" 1.

Definition paginate_questions (request : Request)
    (selection : list Question.t) : list Question.formatted :=
  let page := requested_page request in
  let start := (page - 1) * QUESTIONS_PER_PAGE in
  let end_ := start + QUESTIONS_PER_PAGE in
  let questions := map Question.format selection in
  let current_questions := py_slice questions start end_ in
  current_questions.

End Pagination.

(** ** Category aggregation *)

(** The loop of [list_current_categories]: one step per question, the list
    built so far is the state. *)
Definition list_current_categories (questions : list Question.formatted)
    : list string :=
  fold_left
    (fun current_categories question =>
       if negb (mem_string (Question.f_category question) current_categories)
       then current_categories ++ [Question.f_category question]
       else current_categories)
    questions [].

Definition list_all_categories (categories : list Category.t) : list string :=
  fold_left
    (fun categories_list category =>
       categories_list ++ [Category.type category])
    categories [].

(** ** JSON bodies of the responses *)

#[local] Unset Elimination Schemes.
Inductive json : Type :=
| JNull
| JBool (b : bool)
| JNum (z : Z)
| JStr (s : string)
| JArr (items : list json)
| JObj (fields : list (string * json)).
#[local] Set Elimination Schemes.

(** The value under a key of an object, when there is one. *)
Fixpoint field_of (key : string) (fields : list (string * json))
    : option json :=
  match fields with
  | [] => None
  | (k, v) :: rest => if String.eqb key k then Some v else field_of key rest
  end.

Definition field (key : string) (body : json) : option json :=
  match body with
  | JObj fields => field_of key fields
  | _ => None
  end.

Definition has_key (key : string) (body : json) : bool :=
  match field key body with
  | Some _ => true
  | None => false
  end.

Definition formatted_json (q : Question.formatted) : json :=
  JObj [ ("id", JNum (Question.f_id q));
         ("question", JStr (Question.f_question q));
         ("answer", JStr (Question.f_answer q));
         ("category", JStr (Question.f_category q));
         ("difficulty", JNum (Question.f_difficulty q)) ].

(** ** Queries on the store *)

(** Modelled from the spec: [Question.query.all()], "all records". *)
Definition all_questions (store : Store) : list Question.t := questions store.

(** Modelled from the spec: [Question.query.filter_by(category=text).all()],
    "records matching a field equality"; the field is compared in its text
    form, the form [format()] shows. *)
Definition questions_by_category (text : string) (store : Store)
    : list Question.t :=
  filter (fun q => String.eqb (py_str (Question.category q)) text)
         (questions store).

(** Modelled from the spec: [Category.query.filter_by(id=i).first()],
    "record by id"; [None] when no record has that id. *)
Definition category_by_id (i : Z) (store : Store) : option Category.t :=
  find (fun c => Category.id c =? i) (categories store).

(** Modelled from the spec: [Question.insert()]: the store assigns the next
    identifier and keeps the record. *)
Definition insert_question (question answer : string) (difficulty category : Z)
    (store : Store) : Store :=
  {| questions :=
       questions store
       ++ [Question.make (next_id store) question answer difficulty category];
     categories := categories store;
     next_id := next_id store + 1 |}.

(** ** POST /questions: search or create *)

Module PostQuestion.

(** The keys the handler reads.  [searchTerm] is absent ([None]), [null]
    ([Some None]) or a text; every other key is absent or present. *)
Record body : Type := {
  searchTerm : option (option string);
  question : option string;
  answer : option string;
  difficulty : option Z;
  category : option Z
}.

End PostQuestion.

(** [body[key]] on a key that may be absent. *)
Definition item {A : Type} (value : option A) : outcome A :=
  match value with
  | Some a => Return a
  | None => Raise KeyError
  end.

Section Search.

(** Python's [str.lower]. *)
Variable lower : string -> string.

(** The search loop of [post_question]: the questions kept so far are the
    state. *)
Definition filtered_questions (search_term : string)
    (questions : list Question.t) : list Question.t :=
  fold_left
    (fun filtered question =>
       if contains (lower search_term) (lower (Question.question question))
       then filtered ++ [question]
       else filtered)
    questions [].

(** The test of that loop, on its own. *)
Definition matches (search_term : string) (q : Question.t) : bool :=
  contains (lower search_term) (lower (Question.question q)).

(** The second loop of the search path, over the formatted matches. *)
Definition search_categories (questions_formatted : list Question.formatted)
    : list string :=
  fold_left
    (fun current_categories question =>
       current_categories ++ [Question.f_category question])
    questions_formatted [].

(** The handler returns its outcome and the store it leaves behind. *)
Definition post_question (store : Store) (body : PostQuestion.body)
    : outcome json * Store :=
  match PostQuestion.searchTerm body with
  | Some (Some search_term) =>
      let questions := all_questions store in
      let filtered := filtered_questions search_term questions in
      let questions_formatted := map Question.format filtered in
      let current_categories := search_categories questions_formatted in
      (Return (JObj
         [ ("success", JBool true);
           ("questions", JArr (map formatted_json questions_formatted));
           ("total_questions", JNum (len questions_formatted));
           ("current_category", JArr (map JStr current_categories)) ]),
       store)
  | Some None => (Abort 400, store)
  | None =>
      match
        (question <- item (PostQuestion.question body);;
         answer <- item (PostQuestion.answer body);;
         difficulty <- item (PostQuestion.difficulty body);;
         category_id <- item (PostQuestion.category body);;
         if String.eqb question "" || String.eqb answer ""
         then Abort 422
         else Return (question, answer, difficulty, category_id))
      with
      | Return (question, answer, difficulty, category_id) =>
          let store' :=
            insert_question question answer difficulty category_id store in
          (match category_by_id category_id store' with
           | None => Raise AttributeError      (* [None.type] *)
           | Some c =>
               Return (JObj
                 [ ("success", JBool true);
                   ("new_entry", JObj
                      [ ("question", JStr question);
                        ("answer", JStr answer);
                        ("difficulty", JNum difficulty);
                        ("category", JStr (Category.type c)) ]) ])
           end, store')
      | Abort s => (Abort s, store)
      | Raise e => (Raise e, store)
      | Spinning => (Spinning, store)
      end
  end.

End Search.

(** ** POST /quizzes *)

Module Quiz.

(** The identifier of a category as the client sends it: a JSON number or
    a JSON text. *)
Inductive id_value : Type :=
| IdNum (z : Z)
| IdText (s : string).

Record category : Type := {
  id : id_value;
  type : string
}.

Record body : Type := {
  previous_questions : list Z;
  quiz_category : category
}.

End Quiz.

(** The two bodies [generate_quiz] can return. *)
Definition served_body (previous_questions : list Z) (new_question : Question.t)
    : json :=
  JObj [ ("success", JBool true);
         ("previous_questions", JArr (map JNum previous_questions));
         ("current_question", JObj
            [ ("id", JNum (Question.id new_question));
              ("question", JStr (Question.question new_question));
              ("answer", JStr (Question.answer new_question)) ]) ].

Definition exhausted_body : json :=
  JObj [ ("success", JBool true);
         ("current_question", JObj
            [ ("id", JStr "");
              ("question", JStr "");
              ("answer", JStr "") ]) ].

Section Selector.

Variable category_questions : list Question.t.
Variable previous_questions : list Z.

(** The stream [random] reads: call number [k] of [randint] consumes
    [entropy k]. *)
Variable entropy : nat -> Z.

(** What call number [k] of [randint(1, len(category_questions))] yields
    when the pool is not empty. *)
Definition draw (k : nat) : Z := 1 + entropy k mod len category_questions.

(** The test of the [while]: [category_questions[random_id - 1].id in
    previous_questions]. *)
Definition already_served (random_id : Z) : outcome bool :=
  q <- py_index category_questions (random_id - 1);;
  Return (mem_Z (Question.id q) previous_questions).

(** The [while] loop, entered with the current [random_id] and the number
    [k] of the next call to [randint]; [fuel] bounds the redraws. *)
Fixpoint redraw (fuel : nat) (k : nat) (random_id : Z) : outcome Z :=
  served <- already_served random_id;;
  if served : bool then
    match fuel with
    | O => Spinning
    | S fuel' =>
        random_id' <- randint 1 (len category_questions) (entropy k);;
        redraw fuel' (S k) random_id'
    end
  else Return random_id.

(** Lines 214 to 238 of the handler. *)
Definition select_question (fuel : nat) : outcome json :=
  random_id <- randint 1 (len category_questions) (entropy 0%nat);;
  if negb (len category_questions =? len previous_questions) then
    random_id <- redraw fuel 1%nat random_id;;
    new_question <- py_index category_questions (random_id - 1);;
    Return (served_body previous_questions new_question)
  else if len category_questions =? len previous_questions then
    Return exhausted_body
  else Raise TypeError.              (* the view would return [None] *)

End Selector.

Section QuizHandler.

Variable int_of_text : string -> option Z.

(** [int(v)] on a JSON number or text. *)
Definition py_int (v : Quiz.id_value) : outcome Z :=
  match v with
  | Quiz.IdNum z => Return z
  | Quiz.IdText s =>
      match int_of_text s with
      | Some z => Return z
      | None => Raise ValueError
      end
  end.

(** Lines 205 to 212: the pool the quiz draws from. *)
Definition quiz_pool (store : Store) (body : Quiz.body)
    : outcome (list Question.t) :=
  c <- py_int (Quiz.id (Quiz.quiz_category body));;
  let category := c + 1 in
  if String.eqb (Quiz.type (Quiz.quiz_category body)) "click"
  then Return (all_questions store)
  else Return (questions_by_category (py_str category) store).

Definition generate_quiz (store : Store) (body : Quiz.body)
    (entropy : nat -> Z) (fuel : nat) : outcome json :=
  category_questions <- quiz_pool store body;;
  select_question category_questions (Quiz.previous_questions body)
                  entropy fuel.

End QuizHandler.

(** ** Instances of the builtins for the examples *)

(** Decimal digits with an optional minus sign. *)
Definition decimal_int (s : string) : option Z :=
  match s with
  | "" => None
  | "-" => None
  | _ => option_map Z.of_int (NilEmpty.int_of_string s)
  end.

(** ASCII case folding. *)
Definition ascii_lower_char (c : ascii) : ascii :=
  let n := nat_of_ascii c in
  if (65 <=? n)%nat && (n <=? 90)%nat then ascii_of_nat (n + 32) else c.

Fixpoint ascii_lower (s : string) : string :=
  match s with
  | EmptyString => EmptyString
  | String c s' => String (ascii_lower_char c) (ascii_lower s')
  end.

(** ** The aggregate, in the words of the design *)

(** The design's words for the aggregate, "each distinct value once, in the
    order each value first appears", as a function of their own: keep the
    head, and drop its later copies from what the tail yields. *)
Fixpoint first_occurrences (l : list string) : list string :=
  match l with
  | [] => []
  | x :: l' =>
      x :: filter (fun y => negb (String.eqb y x)) (first_occurrences l')
  end.

(** The position at which a value first appears, the length when it never
    does. *)
Fixpoint first_index (x : string) (l : list string) : nat :=
  match l with
  | [] => O
  | y :: l' => if String.eqb x y then O else S (first_index x l')
  end.

(** A formatted question that carries the given category. *)
Definition in_category (c : string) : Question.formatted :=
  Question.make_formatted 0 "" "" c 0.

(** ** Sample data *)

(** The questions and the category of the test suite. *)
Definition question_1 : Question.t := Question.make 1 "Q1?" "A1" 1 1.
Definition question_2 : Question.t := Question.make 2 "Q2?" "A2" 2 1.
Definition question_3 : Question.t := Question.make 3 "What is Q1?" "A3" 3 3.
Definition question_4 : Question.t := Question.make 4 "Another q1" "A4" 1 3.

Definition science : Category.t := Category.make 1 "science".

Definition sample_store : Store :=
  {| questions := [question_1; question_2; question_3; question_4];
     categories := [science];
     next_id := 5 |}.

Definition empty_store : Store :=
  {| questions := []; categories := [science]; next_id := 1 |}.

(** [n] questions of one category, numbered from 1. *)
Definition numbered (n : nat) : list Question.t :=
  map (fun i => Question.make (Z.of_nat i) "question?" "answer" 1 1) (seq 1 n).

Definition page_request (text : string) : Request :=
  {| args := [("page", text)] |}.

Definition search_body (term : string) : PostQuestion.body :=
  {| PostQuestion.searchTerm := Some (Some term);
     PostQuestion.question := None;
     PostQuestion.answer := None;
     PostQuestion.difficulty := None;
     PostQuestion.category := None |}.

Definition create_body (question answer : string) (difficulty category : Z)
    : PostQuestion.body :=
  {| PostQuestion.searchTerm := None;
     PostQuestion.question := Some question;
     PostQuestion.answer := Some answer;
     PostQuestion.difficulty := Some difficulty;
     PostQuestion.category := Some category |}.

Definition quiz_body (previous : list Z) (id : Quiz.id_value) (type : string)
    : Quiz.body :=
  {| Quiz.previous_questions := previous;
     Quiz.quiz_category := {| Quiz.id := id; Quiz.type := type |} |}.

(** An entropy stream that counts up from 0. *)
Definition counting (k : nat) : Z := Z.of_nat k.

(** ** The listings, the deletion and the error handlers *)

(** The truth value [if body:] reads off what [request.get_json()] returns:
    no body, [null], [false], 0, the empty text, the empty array and the
    empty object count as false. *)
Definition truthy (body : option json) : bool :=
  match body with
  | None => false
  | Some JNull => false
  | Some (JBool b) => b
  | Some (JNum z) => negb (z =? 0)
  | Some (JStr s) => negb (String.eqb s "")
  | Some (JArr items) => match items with [] => false | _ :: _ => true end
  | Some (JObj fields) => match fields with [] => false | _ :: _ => true end
  end.

(** [math.ceil(n / 10.0)] for the length [n] of a list.  The float quotient
    of a length by ten is exact on multiples of ten and otherwise stays
    strictly between the two integers around the exact quotient, so its
    ceiling is the integer ceiling. *)
Definition ceil_tenth (n : Z) : Z := (n + 9) / 10.

(** The body shared by the two listings. *)
Definition listing_body (questions : list Question.t)
    (current_questions : list Question.formatted)
    (all_categories current_categories : list string) : json :=
  JObj [ ("success", JBool true);
         ("questions", JArr (map formatted_json current_questions));
         ("total_questions", JNum (len questions));
         ("categories", JArr (map JStr all_categories));
         ("current_category", JArr (map JStr current_categories)) ].

(** Modelled from the spec: [Category.query.all()], "all records". *)
Definition all_categories (store : Store) : list Category.t := categories store.

(** GET /categories.  The handler also fills a list of its own that it
    never reads. *)
Definition get_categories (store : Store) : outcome json :=
  let categories := all_categories store in
  Return (JObj [ ("success", JBool true);
                 ("categories",
                  JArr (map JStr (list_all_categories categories))) ]).

(** Modelled from the spec: [Question.query.filter_by(id=text).first()] on
    the id of the URL, "record by id"; the key is compared in its text
    form. *)
Definition question_by_id (text : string) (store : Store) : option Question.t :=
  find (fun q => String.eqb (py_str (Question.id q)) text) (questions store).

(** Modelled from the spec: [Category.query.filter_by(id=text).one_or_none()]
    on the id of the URL; ids are keys, so at most one record answers. *)
Definition category_by_text (text : string) (store : Store)
    : option Category.t :=
  find (fun c => String.eqb (py_str (Category.id c)) text) (categories store).

(** Modelled from the spec: [Question.delete()]: the record with this key
    leaves the store. *)
Definition delete_record (question : Question.t) (store : Store) : Store :=
  {| questions :=
       filter (fun q => negb (Question.id q =? Question.id question))
              (questions store);
     categories := categories store;
     next_id := next_id store |}.

(** DELETE /questions/<question_id> *)
Definition delete_question (store : Store) (question_id : string)
    : outcome json * Store :=
  let question := question_by_id question_id store in
  match question with
  | None => (Abort 404, store)
  | Some question =>
      (Return (JObj [ ("success", JBool true);
                      ("message", JStr "question deleted") ]),
       delete_record question store)
  end.

Section Listings.

Variable int_of_text : string -> option Z.

(** GET /questions *)
Definition get_questions (store : Store) (request : Request)
    (body : option json) : outcome json :=
  let questions := all_questions store in
  let page := args_get_int int_of_text request "page" 1 in
  if ceil_tenth (len questions) <? page then Abort 404
  else if truthy body then Abort 400
  else
    let current_questions := paginate_questions int_of_text request questions in
    let current_categories := list_current_categories current_questions in
    let all_categories := list_all_categories (all_categories store) in
    Return (listing_body questions current_questions
                         all_categories current_categories).

(** GET /categories/<category_id>/questions *)
Definition get_questions_by_category (store : Store) (request : Request)
    (category_id : string) : outcome json :=
  let category := category_by_text category_id store in
  let questions := questions_by_category category_id store in
  match category with
  | None => Abort 404
  | Some _ =>
      let current_questions :=
        paginate_questions int_of_text request questions in
      let current_categories := list_current_categories current_questions in
      let all_categories := list_all_categories (all_categories store) in
      Return (listing_body questions current_questions
                           all_categories current_categories)
  end.

End Listings.




(** ** The store's keys and the histories of a quiz *)

(** Modelled from the spec: question ids are "unique, store-assigned": the
    ids in the table are distinct and were all handed out already. *)
Definition store_wf (store : Store) : Prop :=
  NoDup (map Question.id (questions store))
  /\ Forall (fun q => Question.id q < next_id store) (questions store).

(** The histories a client reaches on a pool when it starts from the empty
    history and appends the id of each question it is served. *)
Inductive quiz_history (pool : list Question.t) : list Z -> Prop :=
| history_start : quiz_history pool []
| history_step (previous : list Z) (entropy : nat -> Z) (fuel : nat)
    (q : Question.t) :
    quiz_history pool previous ->
    select_question pool previous entropy fuel
    = Return (served_body previous q) ->
    quiz_history pool (previous ++ [Question.id q]).

(** The length of page [page] of a sequence of [n] items. *)
Definition page_length (n page : Z) : Z :=
  Z.min 10 (Z.max 0 (n - 10 * (page - 1))).

(** * Properties *)

(** ** Slices *)

Lemma len_nonneg {A : Type} (l : list A) : 0 <= len l.
Proof. unfold len. lia. Qed.

Lemma firstn_plus {A : Type} (a b : nat) (l : list A) :
  firstn (a + b) l = firstn a l ++ firstn b (skipn a l).
Proof.
  revert l. induction a as [|a IH]; intros l; simpl.
  - reflexivity.
  - destruct l as [|x l]; simpl.
    + now rewrite firstn_nil.
    + now rewrite IH.
Qed.

(** A slice whose bounds are not negative is a window of the list. *)
Lemma py_slice_window {A : Type} (l : list A) (start size : Z) :
  0 <= start -> 0 <= size ->
  py_slice l start (start + size)
  = firstn (Z.to_nat size) (skipn (Z.to_nat start) l).
Proof.
  intros Hs Hz. unfold py_slice, adjust_index.
  pose proof (len_nonneg l) as Hl.
  destruct (Z.ltb_spec start 0) as [|_]; [lia|].
  destruct (Z.ltb_spec (start + size) 0) as [|_]; [lia|].
  destruct (Z.le_gt_cases (len l) start) as [Hout|Hin].
  - (* the window starts past the end *)
    rewrite (Z.min_r start), (Z.min_r (start + size)) by lia.
    rewrite Z.sub_diag. simpl.
    rewrite (skipn_all2 l) by (unfold len in Hout; lia).
    now rewrite firstn_nil.
  - rewrite (Z.min_l start) by lia.
    destruct (Z.le_gt_cases (start + size) (len l)) as [Hfit|Hcut].
    + rewrite Z.min_l by lia. f_equal. lia.
    + rewrite Z.min_r by lia.
      rewrite !firstn_all2; try reflexivity;
        rewrite length_skipn; unfold len in *; lia.
Qed.

Section PaginationFacts.

Variable int_of_text : string -> option Z.

Local Abbreviation page := (requested_page int_of_text).
Local Abbreviation paginate := (paginate_questions int_of_text).

(** From page 1 on, a page is a window of ten formatted questions. *)
Lemma paginate_questions_window
    (request : Request) (selection : list Question.t) :
  1 <= page request ->
  paginate request selection
  = firstn 10 (skipn (Z.to_nat ((page request - 1) * 10))
                     (map Question.format selection)).
Proof.
  intros Hp. unfold paginate_questions, QUESTIONS_PER_PAGE.
  now rewrite py_slice_window by lia.
Qed.

(** The pages [base+1 .. base+n], one after the other, are the stretch of
    [10 * n] questions that starts after the first [10 * base]. *)
Lemma paginate_questions_run (selection : list Question.t) (n : nat) :
  forall (base : nat) (requests : list Request),
    map page requests = map Z.of_nat (seq (S base) n) ->
    List.concat (map (fun request => paginate request selection) requests)
    = firstn (10 * n) (skipn (10 * base) (map Question.format selection)).
Proof.
  induction n as [|n IH]; intros base requests Hpages.
  - destruct requests; [|discriminate]. now rewrite Nat.mul_0_r.
  - destruct requests as [|request requests]; [discriminate|].
    simpl in Hpages. injection Hpages as Hfirst Hrest.
    simpl map. simpl List.concat.
    rewrite (IH (S base)) by exact Hrest.
    rewrite paginate_questions_window by lia.
    replace (Z.to_nat ((page request - 1) * 10)) with (10 * base)%nat by lia.
    replace (10 * S n)%nat with (10 + 10 * n)%nat by lia.
    rewrite firstn_plus, skipn_skipn.
    do 3 f_equal. lia.
Qed.

(** C5. From page 1 on, [paginate_questions] returns at most 10 items, and
    the pages 1, 2, ..., n laid end to end give back the whole formatted
    sequence as soon as the n pages are enough to hold it. *)
Theorem paginate_questions_bound_and_cover
    (request : Request) (requests : list Request)
    (selection : list Question.t) (n : nat) :
  1 <= page request ->
  map page requests = map Z.of_nat (seq 1 n) ->
  len selection <= 10 * Z.of_nat n ->
  (List.length (paginate request selection) <= 10)%nat
  /\ List.concat (map (fun r => paginate r selection) requests)
     = map Question.format selection.
Proof.
  intros Hp Hpages Hn. split.
  - rewrite paginate_questions_window by exact Hp. apply firstn_le_length.
  - rewrite (paginate_questions_run selection n 0 requests Hpages).
    simpl skipn. apply firstn_all2.
    rewrite length_map. unfold len in Hn. lia.
Qed.

End PaginationFacts.

(** ** Category aggregation *)


Lemma mem_string_In (x : string) (l : list string) :
  mem_string x l = true <-> In x l.
Proof.
  unfold mem_string. rewrite existsb_exists. split.
  - intros [y [Hy Heq]]. apply String.eqb_eq in Heq. now subst.
  - intros Hin. exists x. split; [exact Hin | apply String.eqb_refl].
Qed.

Lemma mem_string_app (x : string) (l1 l2 : list string) :
  mem_string x (l1 ++ l2) = mem_string x l1 || mem_string x l2.
Proof. unfold mem_string. apply existsb_app. Qed.

Lemma filter_twice {A : Type} (p q : A -> bool) (l : list A) :
  filter p (filter q l) = filter (fun x => q x && p x) l.
Proof.
  induction l as [|x l IH]; simpl; [reflexivity|].
  destruct (q x); simpl; [destruct (p x)|]; now rewrite IH.
Qed.

(** The state of the loop after any number of steps: what was there, then
    the first occurrences of what was read, minus what was there. *)
Lemma list_current_categories_from (questions : list Question.formatted) :
  forall acc : list string,
    fold_left
      (fun current_categories question =>
         if negb (mem_string (Question.f_category question) current_categories)
         then current_categories ++ [Question.f_category question]
         else current_categories)
      questions acc
    = acc ++ filter (fun c => negb (mem_string c acc))
                    (first_occurrences (map Question.f_category questions)).
Proof.
  induction questions as [|q questions IH]; intros acc.
  - simpl. now rewrite app_nil_r.
  - cbn [fold_left map first_occurrences filter].
    destruct (mem_string (Question.f_category q) acc) eqn:Hmem; cbn [negb].
    + (* already listed: the state is unchanged *)
      rewrite IH, filter_twice. f_equal. apply filter_ext_in. intros c _.
      destruct (String.eqb_spec c (Question.f_category q)) as [->|_];
        cbn [negb andb]; [now rewrite Hmem | reflexivity].
    + (* new: appended at the end *)
      rewrite IH, filter_twice, <- app_assoc. cbn [app]. do 2 f_equal.
      apply filter_ext_in. intros c _.
      rewrite mem_string_app. unfold mem_string at 2. cbn [existsb].
      rewrite orb_false_r, negb_orb. apply andb_comm.
Qed.

(** The aggregate of the code is the aggregate of the design. *)
Lemma list_current_categories_first_occurrences
    (questions : list Question.formatted) :
  list_current_categories questions
  = first_occurrences (map Question.f_category questions).
Proof.
  unfold list_current_categories. rewrite list_current_categories_from.
  cbn [app]. rewrite <- (filter_ext (fun _ => true)) by reflexivity.
  induction (first_occurrences _) as [|x l IH]; simpl; [|rewrite IH];
    reflexivity.
Qed.

Lemma first_occurrences_In (x : string) (l : list string) :
  In x (first_occurrences l) <-> In x l.
Proof.
  induction l as [|a l IH]; simpl; [tauto|].
  rewrite filter_In, IH, negb_true_iff, String.eqb_neq.
  destruct (string_dec a x) as [->|Hne]; [tauto|].
  assert (x <> a) by congruence. tauto.
Qed.

Lemma first_occurrences_NoDup (l : list string) : NoDup (first_occurrences l).
Proof.
  induction l as [|a l IH]; simpl; constructor.
  - rewrite filter_In, negb_true_iff, String.eqb_neq. tauto.
  - now apply NoDup_filter.
Qed.

Lemma StronglySorted_map_filter {A : Type} (f : A -> nat) (p : A -> bool)
    (l : list A) :
  StronglySorted lt (map f l) -> StronglySorted lt (map f (filter p l)).
Proof.
  induction l as [|x l IH]; simpl; intros Hs; [constructor|].
  apply StronglySorted_inv in Hs as [Hs Hall].
  destruct (p x); simpl; [constructor|]; auto.
  rewrite Forall_forall in *. intros n Hn. apply Hall.
  rewrite in_map_iff in *. destruct Hn as [y [<- Hy]].
  exists y. split; [reflexivity|]. now apply filter_In in Hy.
Qed.

Lemma StronglySorted_map_S (l : list nat) :
  StronglySorted lt l -> StronglySorted lt (map S l).
Proof.
  induction 1 as [|n l _ IH Hall]; simpl; constructor; [exact IH|].
  rewrite Forall_forall in *. intros m Hm.
  apply in_map_iff in Hm as [k [<- Hk]]. apply Hall in Hk. lia.
Qed.

(** Read along the aggregate, the positions of first appearance go up. *)
Lemma first_occurrences_in_order (l : list string) :
  StronglySorted lt (map (fun c => first_index c l) (first_occurrences l)).
Proof.
  induction l as [|a l IH]; simpl; [constructor|].
  rewrite String.eqb_refl.
  rewrite map_ext_in
    with (g := fun c => S (first_index c l)).
  - rewrite <- map_map with (f := fun c => first_index c l) (g := S).
    constructor.
    + apply StronglySorted_map_S, StronglySorted_map_filter, IH.
    + rewrite Forall_forall. intros m Hm.
      apply in_map_iff in Hm as [k [<- _]]. lia.
  - intros c Hc. apply filter_In in Hc as [_ Hc].
    apply negb_true_iff in Hc. now rewrite Hc.
Qed.


(** C8. [list_current_categories] returns every category of its input once:
    the result has no duplicates, has the same members as the input
    categories, lists them by position of first appearance, and is the
    design's "first occurrences" of the input; categories 2, 1, 2, 3 give
    2, 1, 3. *)
Theorem list_current_categories_distinct_first_seen
    (questions : list Question.formatted) :
  let cats := map Question.f_category questions in
  let result := list_current_categories questions in
  NoDup result
  /\ (forall c, In c result <-> In c cats)
  /\ StronglySorted lt (map (fun c => first_index c cats) result)
  /\ result = first_occurrences cats
  /\ list_current_categories (map in_category ["2"; "1"; "2"; "3"])
     = ["2"; "1"; "3"].
Proof.
  intros cats result. subst cats result.
  rewrite list_current_categories_first_occurrences.
  split; [apply first_occurrences_NoDup|].
  split; [intros c; apply first_occurrences_In|].
  split; [apply first_occurrences_in_order|].
  split; reflexivity.
Qed.

(** ** Search *)

Lemma prefix_append (a b : string) :
  prefix a b = true <-> exists post, b = String.append a post.
Proof.
  revert b. induction a as [|c a IH]; intros [|d b]; simpl.
  - split; [intros _; now exists "" | reflexivity].
  - split; [intros _; now exists (String d b) | reflexivity].
  - split; [discriminate | intros [post H]; discriminate].
  - destruct (ascii_dec c d) as [->|Hne].
    + rewrite IH. split; intros [post H]; exists post.
      * now subst.
      * now injection H.
    + split; [discriminate|]. intros [post H]. congruence.
Qed.

(** [contains a b] holds exactly when [b] is some text, then [a], then some
    text. *)
Lemma contains_spec (a b : string) :
  contains a b = true
  <-> exists pre post, b = String.append pre (String.append a post).
Proof.
  induction b as [|d b IH]; cbn [contains];
    rewrite orb_true_iff, prefix_append.
  - split.
    + intros [[post H]|H]; [|discriminate]. exists "", post. exact H.
    + intros [[|c pre] [post H]]; [|discriminate]. left. now exists post.
  - rewrite IH. split.
    + intros [[post H]|[pre [post H]]].
      * exists "", post. exact H.
      * exists (String d pre), post. simpl. now rewrite H.
    + intros [[|c pre] [post H]].
      * left. now exists post.
      * right. simpl in H. injection H as _ H. now exists pre, post.
Qed.

Section SearchFacts.

Variable lower : string -> string.


Lemma filtered_questions_from
    (search_term : string) (questions : list Question.t) :
  forall acc : list Question.t,
    fold_left
      (fun filtered question =>
         if contains (lower search_term) (lower (Question.question question))
         then filtered ++ [question]
         else filtered)
      questions acc
    = acc ++ filter (matches lower search_term) questions.
Proof.
  induction questions as [|q questions IH]; intros acc; simpl.
  - now rewrite app_nil_r.
  - rewrite IH. unfold matches at 2.
    destruct (contains _ _); [|reflexivity].
    now rewrite <- app_assoc.
Qed.

Lemma filtered_questions_filter
    (search_term : string) (questions : list Question.t) :
  filtered_questions lower search_term questions
  = filter (matches lower search_term) questions.
Proof. unfold filtered_questions. now rewrite filtered_questions_from. Qed.

Lemma search_categories_map (questions_formatted : list Question.formatted) :
  search_categories questions_formatted
  = map Question.f_category questions_formatted.
Proof.
  unfold search_categories.
  enough (H : forall acc,
             fold_left (fun cc q => cc ++ [Question.f_category q])
                       questions_formatted acc
             = acc ++ map Question.f_category questions_formatted)
    by apply (H []).
  induction questions_formatted as [|q l IH]; intros acc; simpl.
  - now rewrite app_nil_r.
  - now rewrite IH, <- app_assoc.
Qed.

(** C7. The search keeps exactly the questions whose lowercased text has the
    lowercased term inside it, in the order of the input; the empty term
    keeps them all. *)
Theorem search_filter_substring_in_order
    (search_term : string) (questions : list Question.t) :
  lower "" = "" ->
  filtered_questions lower search_term questions
  = filter (matches lower search_term) questions
  /\ (forall q,
        In q (filtered_questions lower search_term questions)
        <-> In q questions
            /\ exists pre post,
                 lower (Question.question q)
                 = String.append pre (String.append (lower search_term) post))
  /\ filtered_questions lower "" questions = questions.
Proof.
  intros Hempty. rewrite !filtered_questions_filter. split; [reflexivity|].
  split.
  - intros q. rewrite filter_In. unfold matches. now rewrite contains_spec.
  - rewrite <- (filter_ext (fun _ => true)).
    + induction questions as [|q l IH]; simpl; [|rewrite IH]; reflexivity.
    + intros q. unfold matches. rewrite Hempty. symmetry.
      apply contains_spec. now exists "", (lower (Question.question q)).
Qed.

(** C10. On the search path the response lists under [current_category] the
    category text of every match, one entry per match in match order, and
    gives under [total_questions] the number of matches; the store is left
    as it was. *)
Theorem search_response_categories_and_total
    (store : Store) (body : PostQuestion.body) (search_term : string) :
  PostQuestion.searchTerm body = Some (Some search_term) ->
  let found := filter (matches lower search_term) (questions store) in
  exists response,
    post_question lower store body = (Return response, store)
    /\ field "current_category" response
       = Some (JArr (map (fun q => JStr (py_str (Question.category q))) found))
    /\ field "total_questions" response = Some (JNum (len found))
    /\ field "questions" response
       = Some (JArr (map (fun q => formatted_json (Question.format q)) found)).
Proof.
  intros Hterm found. unfold post_question. rewrite Hterm.
  eexists. split; [reflexivity|].
  rewrite search_categories_map. unfold all_questions.
  rewrite filtered_questions_filter. fold found.
  cbn [field field_of String.eqb Ascii.eqb Bool.eqb].
  rewrite !map_map. unfold len. rewrite length_map.
  repeat split.
Qed.

End SearchFacts.

(** ** The quiz selector *)

Lemma mem_Z_In (x : Z) (l : list Z) : mem_Z x l = true <-> In x l.
Proof.
  unfold mem_Z. rewrite existsb_exists. split.
  - intros [y [Hy Heq]]. apply Z.eqb_eq in Heq. now subst.
  - intros Hin. exists x. split; [exact Hin | apply Z.eqb_refl].
Qed.

Lemma mem_Z_not_In (x : Z) (l : list Z) : mem_Z x l = false <-> ~ In x l.
Proof.
  rewrite <- mem_Z_In. destruct (mem_Z x l); split; congruence.
Qed.

(** Inside the bounds, indexing is [nth_error]. *)
Lemma py_index_inside {A : Type} (l : list A) (i : Z) :
  0 <= i < len l ->
  exists x, py_index l i = Return x /\ nth_error l (Z.to_nat i) = Some x.
Proof.
  intros Hi. unfold py_index.
  destruct (Z.ltb_spec i 0) as [|_]; [lia|].
  destruct (Z.ltb_spec i 0) as [|_]; [lia|].
  destruct (Z.leb_spec (len l) i) as [|_]; [lia|]. simpl.
  destruct (nth_error l (Z.to_nat i)) as [x|] eqn:Hnth.
  - now exists x.
  - apply nth_error_None in Hnth. unfold len in Hi. lia.
Qed.

Lemma py_index_member {A : Type} (l : list A) (i : Z) (x : A) :
  py_index l i = Return x -> In x l.
Proof.
  unfold py_index. destruct (_ || _); [discriminate|].
  destruct (nth_error l _) as [y|] eqn:Hnth; [|discriminate].
  intros [= <-]. eapply nth_error_In, Hnth.
Qed.

Lemma randint_inside (n entropy : Z) :
  0 < n ->
  randint 1 n entropy = Return (1 + entropy mod n)
  /\ 1 <= 1 + entropy mod n <= n.
Proof.
  intros Hn. unfold randint.
  destruct (Z.ltb_spec n 1) as [|_]; [lia|].
  replace (n - 1 + 1) with n by lia.
  pose proof (Z.mod_pos_bound entropy n Hn). split; [reflexivity | lia].
Qed.

Section SelectorFacts.

Variable pool : list Question.t.
Variable previous : list Z.
Variable entropy : nat -> Z.


Local Abbreviation served := (already_served pool previous).
Local Abbreviation loop := (redraw pool previous entropy).

Lemma already_served_inside (r : Z) :
  1 <= r <= len pool ->
  exists q, In q pool
            /\ py_index pool (r - 1) = Return q
            /\ served r = Return (mem_Z (Question.id q) previous).
Proof.
  intros Hr. destruct (py_index_inside pool (r - 1)) as [q [Hq Hnth]]; [lia|].
  exists q. split; [eapply py_index_member, Hq|]. split; [exact Hq|].
  unfold already_served. now rewrite Hq.
Qed.

Lemma draw_inside (k : nat) :
  0 < len pool -> 1 <= draw pool entropy k <= len pool.
Proof. intros Hn. now apply randint_inside. Qed.

(** The loop never fails on a valid index: it stops on an index whose
    question is new, or it uses up its redraws on served questions. *)
Lemma redraw_outcome (fuel : nat) :
  forall (k : nat) (r : Z),
    1 <= r <= len pool ->
    match loop fuel k r with
    | Return r' => 1 <= r' <= len pool /\ served r' = Return false
    | Spinning =>
        served r = Return true
        /\ forall j, (j < fuel)%nat ->
             served (draw pool entropy (k + j)) = Return true
    | Abort _ | Raise _ => False
    end.
Proof.
  induction fuel as [|fuel IH]; intros k r Hr;
    destruct (already_served_inside r Hr) as [q [_ [_ Hs]]];
    cbn [redraw]; rewrite Hs; cbn [bind];
    destruct (mem_Z (Question.id q) previous); cbn iota;
    try (split; [exact Hr | exact Hs]).
  - split; [reflexivity | intros j Hj; lia].
  - assert (Hn : 0 < len pool) by lia.
    destruct (randint_inside _ (entropy k) Hn) as [-> Hd]. cbn [bind].
    specialize (IH (S k) _ Hd). fold (draw pool entropy k) in *.
    destruct (loop fuel (S k) (draw pool entropy k)); try exact IH.
    destruct IH as [Hfirst Hrest]. split; [reflexivity|].
    intros [|j] Hj.
    + now rewrite Nat.add_0_r.
    + replace (k + S j)%nat with (S k + j)%nat by lia. apply Hrest. lia.
Qed.

(** With enough redraws the loop stops at the first new question drawn. *)
Lemma redraw_stops (k j : nat) (r : Z) :
  1 <= r <= len pool ->
  served (draw pool entropy (k + j)) = Return false ->
  exists r', loop (S j) k r = Return r'.
Proof.
  intros Hr Hnew. pose proof (redraw_outcome (S j) k r Hr) as H.
  destruct (loop (S j) k r) as [r'| | |]; try contradiction.
  - now exists r'.
  - destruct H as [_ H]. rewrite (H j) in Hnew by lia. discriminate.
Qed.

End SelectorFacts.

Section SelectorClaims.

Variable pool : list Question.t.
Variable previous : list Z.

Local Abbreviation served := (already_served pool previous).

(** What the selector does with a pool whose size differs from the
    history's and that is not empty. *)
Lemma select_question_drawing (entropy : nat -> Z) (fuel : nat) :
  0 < len pool -> len pool <> len previous ->
  select_question pool previous entropy fuel
  = (random_id <- redraw pool previous entropy fuel 1 (draw pool entropy 0);;
     new_question <- py_index pool (random_id - 1);;
     Return (served_body previous new_question)).
Proof.
  intros Hn Hne. unfold select_question.
  destruct (randint_inside _ (entropy 0%nat) Hn) as [-> _]. cbn [bind].
  destruct (Z.eqb_spec (len pool) (len previous)) as [|_]; [contradiction|].
  reflexivity.
Qed.

(** What it does when the sizes agree and the pool is not empty. *)
Lemma select_question_exhausted (entropy : nat -> Z) (fuel : nat) :
  0 < len pool -> len pool = len previous ->
  select_question pool previous entropy fuel = Return exhausted_body.
Proof.
  intros Hn Heq. unfold select_question.
  destruct (randint_inside _ (entropy 0%nat) Hn) as [-> _]. cbn [bind].
  rewrite Heq, Z.eqb_refl. reflexivity.
Qed.

(** The three ways the selector can end on a history shorter than the
    pool. *)
Lemma select_question_outcome (entropy : nat -> Z) (fuel : nat) :
  (List.length previous < List.length pool)%nat ->
  match select_question pool previous entropy fuel with
  | Return body =>
      exists q, In q pool
                /\ ~ In (Question.id q) previous
                /\ body = served_body previous q
  | Spinning =>
      forall j, (j <= fuel)%nat -> served (draw pool entropy j) = Return true
  | Abort _ | Raise _ => False
  end.
Proof.
  intros Hlt.
  assert (Hn : 0 < len pool) by (unfold len; lia).
  rewrite select_question_drawing by (unfold len; lia).
  pose proof (draw_inside pool entropy 0 Hn) as Hd.
  pose proof (redraw_outcome pool previous entropy fuel 1 _ Hd) as Hloop.
  destruct (redraw pool previous entropy fuel 1 (draw pool entropy 0))
    as [r| | |]; cbn [bind]; try contradiction.
  - destruct Hloop as [Hr Hnew].
    destruct (already_served_inside pool previous r Hr) as [q [Hin [Hq Hs]]].
    rewrite Hq. cbn [bind]. exists q. split; [exact Hin|].
    split; [|reflexivity].
    apply mem_Z_not_In. rewrite Hs in Hnew. congruence.
  - destruct Hloop as [Hfirst Hrest]. intros [|j] Hj; [exact Hfirst|].
    apply (Hrest j). lia.
Qed.

(** C1. With a history shorter than the pool, every body the selector
    returns serves a question of the pool whose id is not in the history
    passed in; the selector raises nothing and aborts nothing, and it is
    still drawing after [fuel] redraws only when every draw so far hit a
    served question. *)
Theorem quiz_selector_never_repeats (entropy : nat -> Z) (fuel : nat) :
  (List.length previous < List.length pool)%nat ->
  (forall body,
     select_question pool previous entropy fuel = Return body ->
     exists q, In q pool
               /\ ~ In (Question.id q) previous
               /\ body = served_body previous q)
  /\ (forall e, select_question pool previous entropy fuel <> Raise e)
  /\ (forall status, select_question pool previous entropy fuel <> Abort status)
  /\ (select_question pool previous entropy fuel = Spinning ->
      forall j, (j <= fuel)%nat -> served (draw pool entropy j) = Return true).
Proof.
  intros Hlt. pose proof (select_question_outcome entropy fuel Hlt) as H.
  destruct (select_question pool previous entropy fuel) as [body|s|e|].
  - split; [intros b [= <-]; exact H|]. repeat split; discriminate.
  - contradiction.
  - contradiction.
  - repeat split; try discriminate. intros _. exact H.
Qed.

(** A pool with distinct ids that is longer than the history holds a
    question the history does not name. *)
Lemma unserved_question_exists :
  NoDup (map Question.id pool) ->
  (List.length previous < List.length pool)%nat ->
  exists q, In q pool /\ mem_Z (Question.id q) previous = false.
Proof.
  intros Hkeys Hlt.
  destruct (find (fun q => negb (mem_Z (Question.id q) previous)) pool)
    as [q|] eqn:Hfind.
  - apply find_some in Hfind as [Hin Hq]. exists q.
    split; [exact Hin | now apply negb_true_iff].
  - exfalso.
    assert (Hincl : incl (map Question.id pool) previous).
    { intros i Hi. apply in_map_iff in Hi as [q [<- Hq]].
      apply mem_Z_In. apply (find_none _ _ Hfind) in Hq.
      now apply negb_false_iff in Hq. }
    apply (NoDup_incl_length Hkeys) in Hincl.
    rewrite length_map in Hincl. lia.
Qed.

(** C6. When the ids of the pool are distinct (they are keys of the store),
    the history has no duplicates, names only questions of the pool and is
    shorter than the pool, some index [randint] can draw holds a question
    that was not served; the loop stops as soon as such an index is drawn,
    and some entropy stream makes it stop at once. *)
Theorem quiz_selector_terminates :
  NoDup (map Question.id pool) ->
  NoDup previous ->
  incl previous (map Question.id pool) ->
  (List.length previous < List.length pool)%nat ->
  (exists r, 1 <= r <= len pool /\ served r = Return false)
  /\ (forall entropy k,
        served (draw pool entropy k) = Return false ->
        exists q, select_question pool previous entropy k
                  = Return (served_body previous q))
  /\ (exists entropy q, forall fuel,
        select_question pool previous entropy fuel
        = Return (served_body previous q)).
Proof.
  intros Hkeys _ _ Hlt.
  assert (Hn : 0 < len pool) by (unfold len; lia).
  assert (Hne : len pool <> len previous) by (unfold len; lia).
  destruct (unserved_question_exists Hkeys Hlt) as [q [Hin Hq]].
  apply In_nth_error in Hin as [n Hn_q].
  assert (Hlen : (n < List.length pool)%nat)
    by (apply nth_error_Some; congruence).
  assert (Hr : 1 <= Z.of_nat n + 1 <= len pool) by (unfold len; lia).
  destruct (already_served_inside pool previous _ Hr) as [q' [_ [Hq' Hs]]].
  destruct (py_index_inside pool (Z.of_nat n + 1 - 1)) as [x [Hx Hnth]];
    [lia|].
  replace (Z.to_nat (Z.of_nat n + 1 - 1)) with n in Hnth by lia.
  assert (x = q) by congruence. assert (q' = q) by congruence. subst x q'.
  rewrite Hq in Hs.
  split; [now exists (Z.of_nat n + 1)|]. split.
  - intros entropy k Hnew.
    pose proof (select_question_outcome entropy k Hlt) as H.
    destruct (select_question pool previous entropy k) as [body| | |];
      try contradiction.
    + destruct H as [q0 [_ [_ ->]]]. now exists q0.
    + rewrite (H k) in Hnew by lia. discriminate.
  - exists (fun _ => Z.of_nat n), q. intros fuel.
    rewrite select_question_drawing by assumption.
    assert (Hd : draw pool (fun _ => Z.of_nat n) 0 = Z.of_nat n + 1).
    { unfold draw. rewrite Z.mod_small by (unfold len; lia). lia. }
    rewrite Hd. destruct fuel; cbn [redraw]; rewrite Hs; cbn [bind];
      now rewrite Hq'.
Qed.

(** C2. With an empty pool and an empty history the handler fails in
    [randint], which is called on the range 1..0 before the sizes are
    compared; the exhausted body is what it returns for equal sizes only
    when the pool is not empty. *)
Theorem quiz_selector_empty_pool_raises (entropy : nat -> Z) (fuel : nat) :
  select_question [] [] entropy fuel = Raise ValueError
  /\ forall q : Question.t,
       select_question [q] [Question.id q] entropy fuel = Return exhausted_body.
Proof. split; reflexivity. Qed.

(** C9. Every body the selector returns carries [success] and
    [current_question]; it carries [previous_questions] when a question is
    served and not when the pool is exhausted. *)
Theorem quiz_response_keys (entropy : nat -> Z) (fuel : nat) (body : json) :
  select_question pool previous entropy fuel = Return body ->
  has_key "success" body = true
  /\ has_key "current_question" body = true
  /\ has_key "previous_questions" body = negb (len pool =? len previous).
Proof.
  unfold select_question.
  destruct (randint 1 (len pool) (entropy 0%nat)) as [r0| | |];
    cbn [bind]; try discriminate.
  destruct (len pool =? len previous); cbn [negb].
  - intros [= <-]. repeat split.
  - destruct (redraw _ _ _ _ _ _) as [r| | |]; cbn [bind]; try discriminate.
    destruct (py_index pool (r - 1)) as [q| | |]; cbn [bind]; try discriminate.
    intros [= <-]. repeat split.
Qed.

End SelectorClaims.

(** ** The pool of a quiz *)

Lemma py_str_injective (a b : Z) : py_str a = py_str b -> a = b.
Proof.
  unfold py_str. intros H. apply (f_equal NilEmpty.int_of_string) in H.
  rewrite !NilEmpty.isi in H. injection H as H. now apply to_int_inj.
Qed.

Lemma py_str_eqb (a b : Z) : String.eqb (py_str a) (py_str b) = (a =? b).
Proof.
  destruct (Z.eqb_spec a b) as [->|Hne].
  - apply String.eqb_refl.
  - apply String.eqb_neq. intros H. now apply py_str_injective in H.
Qed.

Section QuizFacts.

Variable int_of_text : string -> option Z.

(** C4. When the category descriptor has the type "click" the pool is every
    stored question; otherwise it is the stored questions whose category is
    the requested id plus 1, in store order; and the quiz is drawn from
    that pool. *)
Theorem quiz_pool_selection
    (store : Store) (body : Quiz.body) (c : Z) :
  py_int int_of_text (Quiz.id (Quiz.quiz_category body)) = Return c ->
  let pool :=
    if String.eqb (Quiz.type (Quiz.quiz_category body)) "click"
    then questions store
    else filter (fun q => Question.category q =? c + 1) (questions store) in
  quiz_pool int_of_text store body = Return pool
  /\ forall entropy fuel,
       generate_quiz int_of_text store body entropy fuel
       = select_question pool (Quiz.previous_questions body) entropy fuel.
Proof.
  intros Hid pool.
  assert (Hpool : quiz_pool int_of_text store body = Return pool).
  { unfold quiz_pool. rewrite Hid. cbn [bind]. subst pool.
    destruct (String.eqb _ "click"); [reflexivity|].
    unfold questions_by_category. f_equal. apply filter_ext.
    intros q. apply py_str_eqb. }
  split; [exact Hpool|]. intros entropy fuel.
  unfold generate_quiz. now rewrite Hpool.
Qed.

End QuizFacts.

(** ** Creating a question *)

Section CreateFacts.

Variable lower : string -> string.

(** What the create path does with a complete body: the question is
    inserted, and the response is built from the category record. *)
Lemma post_question_create
    (store : Store) (body : PostQuestion.body)
    (question answer : string) (difficulty category_id : Z) :
  PostQuestion.searchTerm body = None ->
  PostQuestion.question body = Some question ->
  PostQuestion.answer body = Some answer ->
  PostQuestion.difficulty body = Some difficulty ->
  PostQuestion.category body = Some category_id ->
  question <> "" -> answer <> "" ->
  post_question lower store body
  = (match category_by_id category_id store with
     | None => Raise AttributeError
     | Some c =>
         Return (JObj
           [ ("success", JBool true);
             ("new_entry", JObj
                [ ("question", JStr question);
                  ("answer", JStr answer);
                  ("difficulty", JNum difficulty);
                  ("category", JStr (Category.type c)) ]) ])
     end,
     insert_question question answer difficulty category_id store).
Proof.
  intros Hs Hq Ha Hd Hc Hq0 Ha0. unfold post_question.
  rewrite Hs, Hq, Ha, Hd, Hc. cbn [item bind].
  apply String.eqb_neq in Hq0, Ha0. rewrite Hq0, Ha0. cbn [orb].
  reflexivity.
Qed.

(** C3. A create request with a question and an answer whose category id
    matches no Category record does not get the new-entry body: the question
    is inserted, then reading [.type] of the missing record fails. *)
Theorem post_question_unknown_category_raises
    (store : Store) (body : PostQuestion.body)
    (question answer : string) (difficulty category_id : Z) :
  PostQuestion.searchTerm body = None ->
  PostQuestion.question body = Some question ->
  PostQuestion.answer body = Some answer ->
  PostQuestion.difficulty body = Some difficulty ->
  PostQuestion.category body = Some category_id ->
  question <> "" -> answer <> "" ->
  (forall c, In c (categories store) -> Category.id c <> category_id) ->
  post_question lower store body
  = (Raise AttributeError,
     insert_question question answer difficulty category_id store).
Proof.
  intros Hs Hq Ha Hd Hc Hq0 Ha0 Hmissing.
  rewrite (post_question_create store body _ _ _ _ Hs Hq Ha Hd Hc Hq0 Ha0).
  unfold category_by_id.
  destruct (find _ (categories store)) as [c|] eqn:Hfind; [|reflexivity].
  apply find_some in Hfind as [Hin Hid]. apply Z.eqb_eq in Hid.
  now apply Hmissing in Hin.
Qed.

End CreateFacts.

(** * The properties on the sample data *)

Example search_is_case_insensitive :
  filtered_questions ascii_lower "q1" (questions sample_store)
  = [question_1; question_3; question_4].
Proof. reflexivity. Qed.

Example blank_term_is_not_empty_term :
  filtered_questions ascii_lower " " (questions sample_store)
  = [question_3; question_4].
Proof. reflexivity. Qed.

Example quiz_of_the_test_suite :
  generate_quiz decimal_int sample_store
                (quiz_body [] (Quiz.IdText "0") "Science") counting 0
  = Return (served_body [] question_1).
Proof. reflexivity. Qed.

Example quiz_on_an_empty_store :
  generate_quiz decimal_int empty_store (quiz_body [] (Quiz.IdNum 0) "click")
                counting 0
  = Raise ValueError.
Proof. reflexivity. Qed.

Example create_with_known_category :
  fst (post_question ascii_lower empty_store (create_body "Q1?" "A1" 1 1))
  = Return (JObj
      [ ("success", JBool true);
        ("new_entry", JObj
           [ ("question", JStr "Q1?"); ("answer", JStr "A1");
             ("difficulty", JNum 1); ("category", JStr "science") ]) ]).
Proof. reflexivity. Qed.

Lemma paginate_questions_bound_and_cover_witness :
  (List.length (paginate_questions decimal_int (page_request "2") (numbered 12))
   <= 10)%nat
  /\ List.concat
       (map (fun r => paginate_questions decimal_int r (numbered 12))
            [page_request "1"; page_request "2"])
     = map Question.format (numbered 12).
Proof.
  apply (paginate_questions_bound_and_cover decimal_int (page_request "2")
           [page_request "1"; page_request "2"] (numbered 12) 2).
  - vm_compute. discriminate.
  - reflexivity.
  - vm_compute. discriminate.
Defined.

Lemma search_filter_substring_in_order_witness :
  filtered_questions ascii_lower "Q1" (questions sample_store)
  = filter (matches ascii_lower "Q1") (questions sample_store)
  /\ (forall q,
        In q (filtered_questions ascii_lower "Q1" (questions sample_store))
        <-> In q (questions sample_store)
            /\ exists pre post,
                 ascii_lower (Question.question q)
                 = String.append pre (String.append (ascii_lower "Q1") post))
  /\ filtered_questions ascii_lower "" (questions sample_store)
     = questions sample_store.
Proof.
  apply (search_filter_substring_in_order ascii_lower "Q1"
           (questions sample_store)).
  reflexivity.
Defined.

Lemma search_response_categories_and_total_witness :
  exists response,
    post_question ascii_lower sample_store (search_body "Q1")
    = (Return response, sample_store)
    /\ field "current_category" response
       = Some (JArr [JStr "1"; JStr "3"; JStr "3"])
    /\ field "total_questions" response = Some (JNum 3)
    /\ field "questions" response
       = Some (JArr (map (fun q => formatted_json (Question.format q))
                         [question_1; question_3; question_4])).
Proof.
  exact (search_response_categories_and_total ascii_lower sample_store
           (search_body "Q1") "Q1" eq_refl).
Defined.

Lemma quiz_selector_never_repeats_witness :
  select_question [question_1; question_2] [1] counting 3
  = Return (served_body [1] question_2)
  /\ exists q, In q [question_1; question_2]
               /\ ~ In (Question.id q) [1]
               /\ served_body [1] question_2 = served_body [1] q.
Proof.
  split; [reflexivity|].
  apply (quiz_selector_never_repeats [question_1; question_2] [1] counting 3).
  - simpl. lia.
  - reflexivity.
Defined.

Lemma quiz_selector_terminates_witness :
  (exists r, 1 <= r <= len [question_1; question_2]
             /\ already_served [question_1; question_2] [1] r = Return false)
  /\ (forall entropy k,
        already_served [question_1; question_2] [1]
          (draw [question_1; question_2] entropy k) = Return false ->
        exists q, select_question [question_1; question_2] [1] entropy k
                  = Return (served_body [1] q))
  /\ (exists entropy q, forall fuel,
        select_question [question_1; question_2] [1] entropy fuel
        = Return (served_body [1] q)).
Proof.
  apply (quiz_selector_terminates [question_1; question_2] [1]).
  - simpl. repeat constructor; simpl; intuition discriminate.
  - repeat constructor. simpl. tauto.
  - intros i [<-|[]]. simpl. tauto.
  - simpl. lia.
Defined.

Lemma quiz_response_keys_witness :
  has_key "success" exhausted_body = true
  /\ has_key "current_question" exhausted_body = true
  /\ has_key "previous_questions" exhausted_body = false.
Proof.
  exact (quiz_response_keys [question_1] [1] counting 0 exhausted_body eq_refl).
Defined.

Lemma quiz_pool_selection_witness :
  quiz_pool decimal_int sample_store (quiz_body [] (Quiz.IdText "2") "Art")
  = Return [question_3; question_4]
  /\ forall entropy fuel,
       generate_quiz decimal_int sample_store
                     (quiz_body [] (Quiz.IdText "2") "Art") entropy fuel
       = select_question [question_3; question_4] [] entropy fuel.
Proof.
  exact (quiz_pool_selection decimal_int sample_store
           (quiz_body [] (Quiz.IdText "2") "Art") 2 eq_refl).
Defined.

Lemma post_question_unknown_category_raises_witness :
  post_question ascii_lower sample_store (create_body "Q5?" "A5" 1 99)
  = (Raise AttributeError, insert_question "Q5?" "A5" 1 99 sample_store).
Proof.
  apply (post_question_unknown_category_raises ascii_lower sample_store
           (create_body "Q5?" "A5" 1 99) "Q5?" "A5" 1 99);
    try reflexivity; try discriminate.
  intros c [<-|[]]. discriminate.
Defined.

(** * More of the service *)

(** ** Pages at the edges *)

Section PaginationEdges.

Variable int_of_text : string -> option Z.

Local Abbreviation page := (requested_page int_of_text).
Local Abbreviation paginate := (paginate_questions int_of_text).

(** X1. From page 1 on, the number of items on a page is ten, or what is
    left of the selection after the earlier pages, or nothing. *)
Theorem paginate_questions_page_length
    (request : Request) (selection : list Question.t) :
  1 <= page request ->
  len (paginate request selection)
  = page_length (len selection) (page request).
Proof.
  intros Hp. rewrite paginate_questions_window by exact Hp.
  unfold len, page_length.
  rewrite length_firstn, length_skipn, length_map. lia.
Qed.

(** X2. A request without a [page] argument, or with one that [int] does
    not convert, is served the first page. *)
Theorem paginate_questions_default_page
    (request : Request) (selection : list Question.t) :
  (assoc "page" (args request) = None
   \/ exists text, assoc "page" (args request) = Some text
                   /\ int_of_text text = None) ->
  page request = 1
  /\ paginate request selection = firstn 10 (map Question.format selection).
Proof.
  intros Harg.
  assert (Hpage : page request = 1).
  { unfold requested_page, args_get_int.
    destruct Harg as [-> | [text [-> ->]]]; reflexivity. }
  split; [exact Hpage|].
  rewrite paginate_questions_window by lia. now rewrite Hpage.
Qed.

(** X3. Page 0 is empty, and a negative page [-m] is read from the end of
    the selection: it holds the last ten items once the last [10 * m] are
    set aside. *)
Theorem paginate_questions_nonpositive_page
    (request : Request) (selection : list Question.t) (m : nat) :
  page request = - Z.of_nat m ->
  paginate request selection
  = match m with
    | O => []
    | S _ => rev (firstn 10 (skipn (10 * m)
                                   (rev (map Question.format selection))))
    end.
Proof.
  intros Hp. unfold paginate_questions, QUESTIONS_PER_PAGE. rewrite Hp.
  set (l := map Question.format selection).
  unfold py_slice, adjust_index. pose proof (len_nonneg l) as Hl.
  destruct (Z.ltb_spec ((- Z.of_nat m - 1) * 10) 0) as [_|]; [|lia].
  destruct m as [|m].
  - (* the stop bound is 0 *)
    destruct (Z.ltb_spec ((- Z.of_nat 0 - 1) * 10 + 10) 0) as [|_]; [lia|].
    replace (Z.to_nat _) with 0%nat by lia. reflexivity.
  - destruct (Z.ltb_spec ((- Z.of_nat (S m) - 1) * 10 + 10) 0) as [_|];
      [|lia].
    rewrite skipn_rev, firstn_rev, rev_involutive, skipn_firstn_comm.
    rewrite length_firstn. unfold len in *. f_equal; [lia|]. f_equal. lia.
Qed.

End PaginationEdges.

(** ** The listings *)

Lemma list_all_categories_map (categories : list Category.t) :
  list_all_categories categories = map Category.type categories.
Proof.
  unfold list_all_categories.
  enough (H : forall acc,
             fold_left (fun names c => names ++ [Category.type c])
                       categories acc
             = acc ++ map Category.type categories)
    by apply (H []).
  induction categories as [|c l IH]; intros acc; simpl.
  - now rewrite app_nil_r.
  - now rewrite IH, <- app_assoc.
Qed.

(** The 404 test of [get_questions], without the division. *)
Lemma ceil_tenth_below (n page : Z) :
  (ceil_tenth n <? page) = (n <=? 10 * (page - 1)).
Proof.
  unfold ceil_tenth.
  destruct (Z.ltb_spec ((n + 9) / 10) page);
    destruct (Z.leb_spec n (10 * (page - 1))); try reflexivity;
    exfalso; Z.to_euclidean_division_equations; lia.
Qed.

Lemma filter_nothing {A : Type} (p : A -> bool) (l : list A) :
  (forall x, In x l -> p x = false) -> filter p l = [].
Proof.
  induction l as [|x l IH]; intros H; simpl; [reflexivity|].
  rewrite (H x) by now left. apply IH. intros y Hy. apply H. now right.
Qed.

(** The aggregate of questions that all carry one category. *)
Lemma list_current_categories_constant
    (c : string) (questions : list Question.formatted) :
  (forall q, In q questions -> Question.f_category q = c) ->
  list_current_categories questions
  = match questions with [] => [] | _ :: _ => [c] end.
Proof.
  intros Hall. rewrite list_current_categories_first_occurrences.
  destruct questions as [|q questions]; [reflexivity|].
  simpl. rewrite (Hall q) by now left. f_equal.
  apply filter_nothing. intros x Hx.
  apply first_occurrences_In, in_map_iff in Hx as [q' [<- Hq']].
  rewrite (Hall q') by now right. now rewrite String.eqb_refl.
Qed.

Lemma py_slice_incl {A : Type} (l : list A) (start stop : Z) (x : A) :
  In x (py_slice l start stop) -> In x l.
Proof.
  unfold py_slice. intros H.
  set (lo := Z.to_nat (adjust_index (len l) start)) in *.
  set (n := Z.to_nat _) in H.
  rewrite <- (firstn_skipn lo l). apply in_or_app. right.
  rewrite <- (firstn_skipn n (skipn lo l)). apply in_or_app. now left.
Qed.

(** A slice that stops at 0 and starts before it is empty. *)
Lemma py_slice_stop_zero {A : Type} (l : list A) (start : Z) :
  start < 0 -> py_slice l start 0 = [].
Proof.
  intros Hs. unfold py_slice, adjust_index.
  pose proof (len_nonneg l) as Hl.
  destruct (Z.ltb_spec start 0) as [_|]; [|lia].
  change (0 <? 0) with false. cbv iota.
  replace (Z.to_nat (Z.min 0 (len l) - Z.max 0 (start + len l))) with 0%nat
    by lia.
  reflexivity.
Qed.

(** X4. The category listing always succeeds and gives one name per
    category record, in store order, with repeated names kept. *)
Theorem get_categories_lists_every_type (store : Store) :
  get_categories store
  = Return (JObj [ ("success", JBool true);
                   ("categories",
                    JArr (map (fun c => JStr (Category.type c))
                              (categories store))) ]).
Proof.
  unfold get_categories, all_categories.
  now rewrite list_all_categories_map, map_map.
Qed.

Section ListingFacts.

Variable int_of_text : string -> option Z.

Local Abbreviation page := (requested_page int_of_text).
Local Abbreviation paginate := (paginate_questions int_of_text).

(** The three ways [get_questions] ends, with the page test in linear
    form. *)
Lemma get_questions_cases
    (store : Store) (request : Request) (body : option json) :
  get_questions int_of_text store request body
  = if len (questions store) <=? 10 * (page request - 1) then Abort 404
    else if truthy body then Abort 400
    else Return (listing_body
                   (questions store)
                   (paginate request (questions store))
                   (map Category.type (categories store))
                   (list_current_categories
                      (paginate request (questions store)))).
Proof.
  unfold get_questions, all_questions, all_categories.
  fold (page request). now rewrite ceil_tenth_below, list_all_categories_map.
Qed.

(** X5. The question listing answers 404 exactly when the requested page
    starts at or past the end of the table, whatever body comes with the
    request; on an empty table that is every page from 1 on. *)
Theorem get_questions_not_found_iff
    (store : Store) (request : Request) (body : option json) :
  get_questions int_of_text store request body = Abort 404
  <-> len (questions store) <= 10 * (page request - 1).
Proof.
  rewrite get_questions_cases.
  destruct (Z.leb_spec (len (questions store)) (10 * (page request - 1)))
    as [Hle|Hgt].
  - tauto.
  - split; [|lia]. destruct (truthy body); discriminate.
Qed.

(** X6. It answers 400 exactly when the page is in range and the request
    carries a body that counts as true; the page test comes first. *)
Theorem get_questions_bad_request_iff
    (store : Store) (request : Request) (body : option json) :
  get_questions int_of_text store request body = Abort 400
  <-> 10 * (page request - 1) < len (questions store)
      /\ truthy body = true.
Proof.
  rewrite get_questions_cases.
  destruct (Z.leb_spec (len (questions store)) (10 * (page request - 1)))
    as [Hle|Hgt].
  - split; [discriminate | lia].
  - destruct (truthy body); split.
    + intros _. split; [exact Hgt | reflexivity].
    + reflexivity.
    + discriminate.
    + intros [_ H]. discriminate.
Qed.

(** X7. A listing that succeeds for a page from 1 on shows at least one
    question; it counts the whole table under [total_questions] and lists
    under [current_category] only the categories on the page. *)
Theorem get_questions_success_shows_questions
    (store : Store) (request : Request) (body : option json)
    (response : json) :
  get_questions int_of_text store request body = Return response ->
  1 <= page request ->
  exists first rest,
    paginate request (questions store) = first :: rest
    /\ field "questions" response
       = Some (JArr (map formatted_json (first :: rest)))
    /\ field "total_questions" response = Some (JNum (len (questions store)))
    /\ field "current_category" response
       = Some (JArr (map JStr (list_current_categories (first :: rest)))).
Proof.
  rewrite get_questions_cases. intros Hok Hp.
  destruct (Z.leb_spec (len (questions store)) (10 * (page request - 1)))
    as [Hle|Hgt]; [discriminate|].
  destruct (truthy body); [discriminate|]. injection Hok as <-.
  destruct (paginate request (questions store)) as [|first rest] eqn:Hpage.
  - exfalso. apply (f_equal (@List.length _)) in Hpage.
    rewrite paginate_questions_window in Hpage by exact Hp.
    rewrite length_firstn, length_skipn, length_map in Hpage.
    unfold len in Hgt. cbn [List.length] in Hpage. lia.
  - exists first, rest. repeat split.
Qed.

(** X8. Page 0 is never refused: without a body the listing succeeds with
    no question and no current category, on an empty table as well. *)
Theorem get_questions_page_zero
    (store : Store) (request : Request) (body : option json) :
  page request = 0 ->
  truthy body = false ->
  get_questions int_of_text store request body
  = Return (listing_body (questions store) []
                         (map Category.type (categories store)) []).
Proof.
  intros Hp Hbody. rewrite get_questions_cases, Hp, Hbody.
  pose proof (len_nonneg (questions store)) as Hn.
  destruct (Z.leb_spec (len (questions store)) (10 * (0 - 1))); [lia|].
  assert (Hempty : paginate request (questions store) = []).
  { unfold paginate_questions, QUESTIONS_PER_PAGE. rewrite Hp.
    now apply py_slice_stop_zero. }
  now rewrite Hempty.
Qed.

End ListingFacts.

(** ** The listing of one category *)

Lemma find_none_iff {A : Type} (p : A -> bool) (l : list A) :
  find p l = None <-> forall x, In x l -> p x = false.
Proof.
  split; [apply find_none|].
  induction l as [|x l IH]; intros H; simpl; [reflexivity|].
  rewrite (H x) by now left. apply IH. intros y Hy. apply H. now right.
Qed.

Section CategoryListingFacts.

Variable int_of_text : string -> option Z.

Local Abbreviation page := (requested_page int_of_text).
Local Abbreviation paginate := (paginate_questions int_of_text).

(** The two ways [get_questions_by_category] ends. *)
Lemma get_questions_by_category_cases
    (store : Store) (request : Request) (category_id : string) :
  get_questions_by_category int_of_text store request category_id
  = match category_by_text category_id store with
    | None => Abort 404
    | Some _ =>
        let selection := questions_by_category category_id store in
        Return (listing_body
                  selection
                  (paginate request selection)
                  (map Category.type (categories store))
                  (list_current_categories (paginate request selection)))
    end.
Proof.
  unfold get_questions_by_category, all_categories.
  now rewrite list_all_categories_map.
Qed.

(** Every question on a page of the category carries the category of the
    URL. *)
Lemma category_page_carries_id
    (store : Store) (request : Request) (category_id : string)
    (q : Question.formatted) :
  In q (paginate request (questions_by_category category_id store)) ->
  Question.f_category q = category_id.
Proof.
  unfold paginate_questions. intros Hq. apply py_slice_incl in Hq.
  apply in_map_iff in Hq as [q0 [<- Hq0]].
  unfold questions_by_category in Hq0. apply filter_In in Hq0 as [_ Heq].
  now apply String.eqb_eq in Heq.
Qed.

(** X9. The listing of the category with id [i] answers 404 exactly when no
    Category record has that id, also when questions carry that
    category. *)
Theorem get_questions_by_category_not_found_iff
    (store : Store) (request : Request) (i : Z) :
  get_questions_by_category int_of_text store request (py_str i) = Abort 404
  <-> forall c, In c (categories store) -> Category.id c <> i.
Proof.
  rewrite get_questions_by_category_cases. unfold category_by_text.
  split.
  - intros H c Hc.
    destruct (find _ (categories store)) eqn:Hfind; [discriminate|].
    apply (find_none _ _ Hfind) in Hc. apply String.eqb_neq in Hc.
    congruence.
  - intros H.
    rewrite (proj2 (find_none_iff _ (categories store))); [reflexivity|].
    intros c Hc. apply String.eqb_neq. intros Heq.
    apply py_str_injective in Heq. now apply (H c).
Qed.

(** X10. For a known category a page past the end is not refused: the
    listing succeeds with no question and no current category, where the
    listing of all questions answers 404. *)
Theorem get_questions_by_category_past_the_end
    (store : Store) (request : Request) (category_id : string)
    (c : Category.t) :
  category_by_text category_id store = Some c ->
  1 <= page request ->
  len (questions_by_category category_id store) <= 10 * (page request - 1) ->
  get_questions_by_category int_of_text store request category_id
  = Return (listing_body (questions_by_category category_id store) []
                         (map Category.type (categories store)) []).
Proof.
  intros Hc Hp Hend. rewrite get_questions_by_category_cases, Hc. cbv zeta.
  assert (Hempty : paginate request (questions_by_category category_id store)
                   = []).
  { rewrite paginate_questions_window by exact Hp.
    rewrite skipn_all2; [apply firstn_nil|].
    rewrite length_map. unfold len in Hend. lia. }
  now rewrite Hempty.
Qed.

(** X11. In the listing of a category every question shown carries the
    category of the URL, [current_category] is that one category, or
    nothing when the page is empty, and [total_questions] counts the
    questions of the category, not the table. *)
Theorem get_questions_by_category_one_category
    (store : Store) (request : Request) (category_id : string)
    (response : json) :
  get_questions_by_category int_of_text store request category_id
  = Return response ->
  exists shown,
    shown = paginate request (questions_by_category category_id store)
    /\ (forall q, In q shown -> Question.f_category q = category_id)
    /\ field "questions" response = Some (JArr (map formatted_json shown))
    /\ field "current_category" response
       = Some (JArr match shown with
                    | [] => []
                    | _ :: _ => [JStr category_id]
                    end)
    /\ field "total_questions" response
       = Some (JNum (len (questions_by_category category_id store))).
Proof.
  rewrite get_questions_by_category_cases.
  destruct (category_by_text category_id store); [|discriminate].
  cbv zeta. intros [= <-]. eexists. split; [reflexivity|].
  split; [intros q; apply category_page_carries_id|].
  split; [reflexivity|]. split; [|reflexivity].
  cbn [field listing_body field_of String.eqb Ascii.eqb Bool.eqb].
  rewrite (list_current_categories_constant category_id).
  - now destruct (paginate request _).
  - intros q. apply category_page_carries_id.
Qed.

End CategoryListingFacts.

(** ** Deleting a question *)

Lemma question_by_id_found (store : Store) (q : Question.t) :
  In q (questions store) ->
  exists q', question_by_id (py_str (Question.id q)) store = Some q'
             /\ Question.id q' = Question.id q.
Proof.
  intros Hin. unfold question_by_id.
  destruct (find _ (questions store)) as [q'|] eqn:Hfind.
  - exists q'. split; [reflexivity|].
    apply find_some in Hfind as [_ Heq].
    apply String.eqb_eq in Heq. now apply py_str_injective.
  - apply (find_none _ _ Hfind) in Hin.
    now rewrite String.eqb_refl in Hin.
Qed.

Lemma filter_everything {A : Type} (p : A -> bool) (l : list A) :
  (forall x, In x l -> p x = true) -> filter p l = l.
Proof.
  induction l as [|x l IH]; intros H; simpl; [reflexivity|].
  rewrite (H x) by now left. f_equal. apply IH. intros y Hy. apply H. now right.
Qed.

(** Dropping the records that carry the key of [q] drops [q] alone when
    keys are distinct. *)
Lemma delete_by_key_length (l : list Question.t) (q : Question.t) :
  NoDup (map Question.id l) -> In q l ->
  S (List.length (filter (fun x => negb (Question.id x =? Question.id q)) l))
  = List.length l.
Proof.
  induction l as [|x l IH]; intros Hnodup Hin; [contradiction|].
  simpl in Hnodup. apply NoDup_cons_iff in Hnodup as [Hx Hl].
  simpl. destruct Hin as [->|Hin].
  - rewrite Z.eqb_refl. simpl. f_equal. f_equal.
    apply filter_everything. intros y Hy.
    apply negb_true_iff, Z.eqb_neq. intros Heq. apply Hx.
    rewrite <- Heq. now apply in_map.
  - destruct (Z.eqb_spec (Question.id x) (Question.id q)) as [Heq|_].
    + exfalso. apply Hx. rewrite Heq. now apply in_map.
    + simpl. f_equal. now apply IH.
Qed.

Lemma delete_by_key_In (l : list Question.t) (q x : Question.t) :
  In x (filter (fun y => negb (Question.id y =? Question.id q)) l)
  <-> In x l /\ Question.id x <> Question.id q.
Proof. now rewrite filter_In, negb_true_iff, Z.eqb_neq. Qed.

(** X12. Deleting the question with id [i] answers 404 and leaves the store
    as it was exactly when no stored question has that id. *)
Theorem delete_question_not_found_iff (store : Store) (i : Z) :
  delete_question store (py_str i) = (Abort 404, store)
  <-> forall q, In q (questions store) -> Question.id q <> i.
Proof.
  unfold delete_question, question_by_id. split.
  - intros H q Hq.
    destruct (find _ (questions store)) eqn:Hfind; [discriminate|].
    apply (find_none _ _ Hfind) in Hq. apply String.eqb_neq in Hq.
    congruence.
  - intros H.
    rewrite (proj2 (find_none_iff _ (questions store))); [reflexivity|].
    intros q Hq. apply String.eqb_neq. intros Heq.
    apply py_str_injective in Heq. now apply (H q).
Qed.

(** X13. Deleting a stored question by its id succeeds; with distinct keys
    it removes that question and no other, keeps the order of the rest and
    leaves the categories and the next id alone. *)
Theorem delete_question_removes_one (store : Store) (q : Question.t) :
  store_wf store ->
  In q (questions store) ->
  exists store',
    delete_question store (py_str (Question.id q))
    = (Return (JObj [ ("success", JBool true);
                      ("message", JStr "question deleted") ]), store')
    /\ questions store'
       = filter (fun x => negb (Question.id x =? Question.id q))
                (questions store)
    /\ (forall x, In x (questions store')
                  <-> In x (questions store) /\ x <> q)
    /\ S (List.length (questions store')) = List.length (questions store)
    /\ categories store' = categories store
    /\ next_id store' = next_id store.
Proof.
  intros [Hkeys _] Hin.
  destruct (question_by_id_found store q Hin) as [q' [Hfound Hid]].
  unfold delete_question. rewrite Hfound.
  eexists. split; [reflexivity|]. unfold delete_record. cbn [questions].
  rewrite Hid. split; [reflexivity|]. split; [|split].
  - intros x. rewrite delete_by_key_In. split.
    + intros [Hx Hne]. split; [exact Hx | congruence].
    + intros [Hx Hne]. split; [exact Hx|]. intros Heq. apply Hne.
      clear - Hkeys Hin Hx Heq.
      induction (questions store) as [|y l IH]; [contradiction|].
      simpl in Hkeys. apply NoDup_cons_iff in Hkeys as [Hy Hl].
      destruct Hx as [->|Hx], Hin as [Hq|Hq]; subst; try reflexivity.
      * exfalso. apply Hy. rewrite Heq. now apply in_map.
      * exfalso. apply Hy. rewrite <- Heq. now apply in_map.
      * now apply IH.
  - now apply delete_by_key_length.
  - split; reflexivity.
Qed.

(** X14. Once a question was deleted, deleting the same id again answers
    404 and changes nothing. *)
Theorem delete_question_twice (store : Store) (q : Question.t) :
  In q (questions store) ->
  let store' := snd (delete_question store (py_str (Question.id q))) in
  delete_question store' (py_str (Question.id q)) = (Abort 404, store').
Proof.
  intros Hin store'.
  destruct (question_by_id_found store q Hin) as [q' [Hfound Hid]].
  assert (Hstore : questions store'
                   = filter (fun x => negb (Question.id x =? Question.id q))
                            (questions store)).
  { subst store'. unfold delete_question. rewrite Hfound.
    unfold delete_record. cbn [snd questions]. now rewrite Hid. }
  unfold delete_question, question_by_id.
  rewrite (proj2 (find_none_iff _ (questions store'))); [reflexivity|].
  intros x Hx. rewrite Hstore in Hx. apply delete_by_key_In in Hx as [_ Hne].
  apply String.eqb_neq. intros Heq. now apply py_str_injective in Heq.
Qed.

(** ** What the handlers do to the store *)

Lemma distinct_ids_filter (keep : Question.t -> bool)
    (table : list Question.t) :
  NoDup (map Question.id table) ->
  NoDup (map Question.id (filter keep table)).
Proof.
  intros Hkeys. induction table as [|x table IH]; [constructor|].
  cbn [map] in Hkeys. apply NoDup_cons_iff in Hkeys as [Hx Htable].
  cbn [filter]. destruct (keep x); [|now apply IH].
  cbn [map]. constructor; [|now apply IH].
  intros Hin. apply Hx. apply in_map_iff in Hin as [y [Hy Hin]].
  apply filter_In in Hin as [Hin _]. rewrite <- Hy. now apply in_map.
Qed.

Lemma insert_question_keeps_keys
    (question answer : string) (difficulty category : Z) (store : Store) :
  store_wf store ->
  store_wf (insert_question question answer difficulty category store).
Proof.
  intros [Hkeys Hbelow]. unfold store_wf, insert_question.
  cbn [questions next_id]. split.
  - rewrite map_app. apply NoDup_app; [exact Hkeys | repeat constructor; easy|].
    intros i Hi [<-|[]]. cbn [Question.id] in Hi.
    apply in_map_iff in Hi as [q [Hq Hin]].
    rewrite Forall_forall in Hbelow. apply Hbelow in Hin. lia.
  - apply Forall_app. split.
    + eapply Forall_impl; [|exact Hbelow]. cbv beta. intros q Hq. lia.
    + repeat constructor. cbn [Question.id]. lia.
Qed.

Lemma delete_record_keeps_keys (q : Question.t) (store : Store) :
  store_wf store -> store_wf (delete_record q store).
Proof.
  intros [Hkeys Hbelow]. unfold store_wf, delete_record.
  cbn [questions next_id]. split.
  - now apply distinct_ids_filter.
  - rewrite Forall_forall in *. intros x Hx. apply Hbelow.
    now apply filter_In in Hx.
Qed.

Section StoreFacts.

Variable lower : string -> string.

(** The store [post_question] leaves behind: the one it got, or that one
    with the question of a complete create body inserted. *)
Lemma post_question_store_cases (store : Store) (body : PostQuestion.body) :
  snd (post_question lower store body) = store
  \/ exists question answer difficulty category_id,
       PostQuestion.searchTerm body = None
       /\ PostQuestion.question body = Some question
       /\ PostQuestion.answer body = Some answer
       /\ PostQuestion.difficulty body = Some difficulty
       /\ PostQuestion.category body = Some category_id
       /\ question <> "" /\ answer <> ""
       /\ snd (post_question lower store body)
          = insert_question question answer difficulty category_id store.
Proof.
  unfold post_question.
  destruct (PostQuestion.searchTerm body) as [[term|]|] eqn:Hs;
    [now left | now left |].
  destruct (PostQuestion.question body) as [question|] eqn:Hq;
    [|now left].
  destruct (PostQuestion.answer body) as [answer|] eqn:Ha; [|now left].
  destruct (PostQuestion.difficulty body) as [difficulty|] eqn:Hd;
    [|now left].
  destruct (PostQuestion.category body) as [category_id|] eqn:Hc;
    [|now left].
  cbn [item bind].
  destruct (String.eqb_spec question "") as [|Hq0]; [now left|].
  destruct (String.eqb_spec answer "") as [|Ha0]; [now left|].
  cbn [orb snd]. right. exists question, answer, difficulty, category_id.
  repeat split; assumption.
Qed.

(** X15. [post_question] never removes or reorders a stored question and
    never touches the categories: it leaves the store as it was, or it
    appends one question, the one of a complete create body with a question
    and an answer, under the next id of the store. *)
Theorem post_question_appends_at_most_one
    (store : Store) (body : PostQuestion.body) :
  let store' := snd (post_question lower store body) in
  categories store' = categories store
  /\ (questions store' = questions store /\ next_id store' = next_id store
      \/ exists question answer difficulty category_id,
           PostQuestion.searchTerm body = None
           /\ PostQuestion.question body = Some question
           /\ PostQuestion.answer body = Some answer
           /\ PostQuestion.difficulty body = Some difficulty
           /\ PostQuestion.category body = Some category_id
           /\ question <> "" /\ answer <> ""
           /\ questions store'
              = questions store
                ++ [Question.make (next_id store) question answer
                                  difficulty category_id]
           /\ next_id store' = next_id store + 1).
Proof.
  intros store'. subst store'.
  destruct (post_question_store_cases store body)
    as [->|[q [a [d [c [Hs [Hq [Ha [Hd [Hc [Hq0 [Ha0 ->]]]]]]]]]]]].
  - split; [reflexivity|]. now left.
  - split; [reflexivity|]. right. exists q, a, d, c. repeat split; assumption.
Qed.

(** X16. [post_question] keeps the keys of the store in order: distinct ids,
    all below the next id, before means the same after, whatever the body
    and however the handler ends. *)
Theorem post_question_keeps_keys (store : Store) (body : PostQuestion.body) :
  store_wf store -> store_wf (snd (post_question lower store body)).
Proof.
  intros Hwf.
  destruct (post_question_store_cases store body)
    as [->|[q [a [d [c [_ [_ [_ [_ [_ [_ [_ ->]]]]]]]]]]]].
  - exact Hwf.
  - now apply insert_question_keeps_keys.
Qed.

End StoreFacts.

(** X17. [delete_question] keeps the keys of the store in order as well. *)
Theorem delete_question_keeps_keys (store : Store) (question_id : string) :
  store_wf store -> store_wf (snd (delete_question store question_id)).
Proof.
  intros Hwf. unfold delete_question.
  destruct (question_by_id question_id store) as [q|]; cbn [snd].
  - now apply delete_record_keeps_keys.
  - exact Hwf.
Qed.

(** X18. Every pool a quiz is drawn from has distinct question ids when the
    keys of the store are in order. *)
Theorem quiz_pool_distinct_ids
    (int_of_text : string -> option Z) (store : Store) (body : Quiz.body)
    (pool : list Question.t) :
  store_wf store ->
  quiz_pool int_of_text store body = Return pool ->
  NoDup (map Question.id pool).
Proof.
  intros [Hkeys _]. unfold quiz_pool.
  destruct (py_int int_of_text _) as [c| | |]; cbn [bind]; try discriminate.
  destruct (String.eqb _ "click"); intros [= <-].
  - exact Hkeys.
  - now apply distinct_ids_filter.
Qed.

(** ** How [post_question] refuses a body *)

Section PostQuestionFacts.

Variable lower : string -> string.

Ltac post_question_branches body :=
  unfold post_question;
  destruct (PostQuestion.searchTerm body) as [[?term|]|];
  destruct (PostQuestion.question body) as [?question|];
  destruct (PostQuestion.answer body) as [?answer|];
  destruct (PostQuestion.difficulty body) as [?difficulty|];
  destruct (PostQuestion.category body) as [?category_id|];
  cbn [item bind].

(** X19. The answer is 400, with the store untouched, exactly when the body
    has the key [searchTerm] with the value [null], whatever else it
    holds. *)
Theorem post_question_bad_request_iff
    (store : Store) (body : PostQuestion.body) :
  post_question lower store body = (Abort 400, store)
  <-> PostQuestion.searchTerm body = Some None.
Proof.
  post_question_branches body;
    try (split; [reflexivity || discriminate | reflexivity || discriminate]).
  destruct (String.eqb _ "" || String.eqb _ ""); cbn [orb];
    [split; discriminate|].
  destruct (category_by_id _ _); split; discriminate.
Qed.

(** X20. The answer is 422, with nothing inserted, exactly when the body has
    no [searchTerm], has all four keys of a question, and its question or
    its answer is the empty text. *)
Theorem post_question_unprocessable_iff
    (store : Store) (body : PostQuestion.body) :
  post_question lower store body = (Abort 422, store)
  <-> PostQuestion.searchTerm body = None
      /\ exists question answer difficulty category_id,
           PostQuestion.question body = Some question
           /\ PostQuestion.answer body = Some answer
           /\ PostQuestion.difficulty body = Some difficulty
           /\ PostQuestion.category body = Some category_id
           /\ (question = "" \/ answer = "").
Proof.
  post_question_branches body;
    try (split; [discriminate|];
         intros [Hs [q [a [d [c [Hq [Ha [Hd [Hc _]]]]]]]]]; discriminate).
  destruct (String.eqb_spec question "") as [Hq0|Hq0];
    [|destruct (String.eqb_spec answer "") as [Ha0|Ha0]]; cbn [orb].
  - split; [|reflexivity]. intros _. split; [reflexivity|].
    exists question, answer, difficulty, category_id. tauto.
  - split; [|reflexivity]. intros _. split; [reflexivity|].
    exists question, answer, difficulty, category_id. tauto.
  - split.
    + destruct (category_by_id _ _); discriminate.
    + intros [_ [q [a [d [c [[= <-] [[= <-] [_ [_ [H|H]]]]]]]]]];
        contradiction.
Qed.

(** X21. A body without [searchTerm] that lacks one of the keys [question],
    [answer], [difficulty] and [category] is not answered with 422: the
    handler raises [KeyError] before it looks at the texts, and inserts
    nothing; no other body ends that way. *)
Theorem post_question_missing_key_iff
    (store : Store) (body : PostQuestion.body) :
  post_question lower store body = (Raise KeyError, store)
  <-> PostQuestion.searchTerm body = None
      /\ (PostQuestion.question body = None
          \/ PostQuestion.answer body = None
          \/ PostQuestion.difficulty body = None
          \/ PostQuestion.category body = None).
Proof.
  post_question_branches body;
    try (split; [discriminate | intros [H _]; discriminate]);
    try (split; [intros _; split; [reflexivity | tauto] | reflexivity]).
  split.
  - destruct (String.eqb _ "" || String.eqb _ ""); [discriminate|].
    destruct (category_by_id _ _); discriminate.
  - intros [_ [H|[H|[H|H]]]]; discriminate.
Qed.

End PostQuestionFacts.

(** ** Create, then search or delete *)

Lemma contains_itself (s : string) : contains s s = true.
Proof.
  apply contains_spec. exists "", "". simpl.
  induction s as [|c s IH]; simpl; [reflexivity | now rewrite <- IH].
Qed.

Section RoundTrips.

Variable lower : string -> string.

(** X22. A question that was just created is found by a search for its own
    text: the search of the store the create left behind lists it, and
    lists it last. *)
Theorem created_question_is_found
    (store : Store) (body found : PostQuestion.body)
    (question answer : string) (difficulty category_id : Z) :
  PostQuestion.searchTerm body = None ->
  PostQuestion.question body = Some question ->
  PostQuestion.answer body = Some answer ->
  PostQuestion.difficulty body = Some difficulty ->
  PostQuestion.category body = Some category_id ->
  question <> "" -> answer <> "" ->
  PostQuestion.searchTerm found = Some (Some question) ->
  let store' := snd (post_question lower store body) in
  let new_question :=
    Question.make (next_id store) question answer difficulty category_id in
  exists earlier,
    filtered_questions lower question (questions store')
    = earlier ++ [new_question]
    /\ fst (post_question lower store' found)
       = Return (JObj
           [ ("success", JBool true);
             ("questions",
              JArr (map (fun q => formatted_json (Question.format q))
                        (earlier ++ [new_question])));
             ("total_questions", JNum (len (earlier ++ [new_question])));
             ("current_category",
              JArr (map (fun q => JStr (py_str (Question.category q)))
                        (earlier ++ [new_question]))) ]).
Proof.
  intros Hs Hq Ha Hd Hc Hq0 Ha0 Hfound store' new_question.
  assert (Hstore : questions store' = questions store ++ [new_question]).
  { subst store'.
    now rewrite (post_question_create lower store body _ _ _ _
                   Hs Hq Ha Hd Hc Hq0 Ha0). }
  exists (filter (matches lower question) (questions store)).
  assert (Hlist : filtered_questions lower question (questions store')
                  = filter (matches lower question) (questions store)
                    ++ [new_question]).
  { rewrite filtered_questions_filter, Hstore, filter_app. f_equal.
    cbn [filter]. unfold matches at 1. subst new_question.
    cbn [Question.question]. now rewrite contains_itself. }
  split; [exact Hlist|].
  unfold post_question. rewrite Hfound. cbn [fst].
  unfold all_questions. rewrite search_categories_map, Hlist.
  rewrite !map_map. unfold len. now rewrite length_map.
Qed.

(** X23. Creating a question and then deleting the id it was given puts the
    table of questions back as it was; the id is not handed out again. *)
Theorem create_then_delete
    (store : Store) (body : PostQuestion.body)
    (question answer : string) (difficulty category_id : Z) :
  store_wf store ->
  PostQuestion.searchTerm body = None ->
  PostQuestion.question body = Some question ->
  PostQuestion.answer body = Some answer ->
  PostQuestion.difficulty body = Some difficulty ->
  PostQuestion.category body = Some category_id ->
  question <> "" -> answer <> "" ->
  let store' := snd (post_question lower store body) in
  exists store'',
    delete_question store' (py_str (next_id store))
    = (Return (JObj [ ("success", JBool true);
                      ("message", JStr "question deleted") ]), store'')
    /\ questions store'' = questions store
    /\ categories store'' = categories store
    /\ next_id store'' = next_id store + 1.
Proof.
  intros [_ Hbelow] Hs Hq Ha Hd Hc Hq0 Ha0 store'.
  set (new_question :=
         Question.make (next_id store) question answer difficulty category_id).
  assert (Hstore : store'
                   = insert_question question answer difficulty category_id
                                     store).
  { subst store'.
    now rewrite (post_question_create lower store body _ _ _ _
                   Hs Hq Ha Hd Hc Hq0 Ha0). }
  assert (Hin : In new_question (questions store')).
  { rewrite Hstore. cbn [insert_question questions].
    apply in_or_app. right. now left. }
  destruct (question_by_id_found store' new_question Hin)
    as [q' [Hfound Hid]].
  cbn [new_question Question.id] in Hfound, Hid.
  unfold delete_question. rewrite Hfound. eexists. split; [reflexivity|].
  unfold delete_record. cbn [questions categories next_id].
  rewrite Hid, Hstore. cbn [insert_question questions categories next_id].
  split; [|split; reflexivity].
  rewrite filter_app. cbn [filter Question.id].
  rewrite Z.eqb_refl. cbn [negb]. rewrite app_nil_r.
  apply filter_everything. intros x Hx.
  rewrite Forall_forall in Hbelow. apply Hbelow in Hx.
  apply negb_true_iff, Z.eqb_neq. lia.
Qed.

End RoundTrips.

(** ** Histories of a quiz *)

Section HistoryFacts.

Variable pool : list Question.t.

(** When every question of the pool is in the history, the loop redraws
    for as long as it is let. *)
Lemma redraw_spins (previous : list Z) (entropy : nat -> Z) :
  (forall q, In q pool -> In (Question.id q) previous) ->
  forall (fuel k : nat) (r : Z),
    1 <= r <= len pool ->
    redraw pool previous entropy fuel k r = Spinning.
Proof.
  intros Hall. induction fuel as [|fuel IH]; intros k r Hr;
    destruct (already_served_inside pool previous r Hr) as [q [Hin [_ Hs]]];
    rewrite (proj2 (mem_Z_In _ _) (Hall q Hin)) in Hs;
    cbn [redraw]; rewrite Hs; cbn [bind]; [reflexivity|].
  assert (Hn : 0 < len pool) by lia.
  destruct (randint_inside _ (entropy k) Hn) as [-> Hd]. cbn [bind].
  now apply IH.
Qed.

(** X24. When the history names every question of a pool that is not empty
    and has another length than the pool (stale or foreign ids in it), the
    handler never answers: the loop is still redrawing after any number of
    draws, on any entropy. *)
Theorem quiz_selector_spins_on_stale_history
    (previous : list Z) (entropy : nat -> Z) (fuel : nat) :
  pool <> [] ->
  len pool <> len previous ->
  (forall q, In q pool -> In (Question.id q) previous) ->
  select_question pool previous entropy fuel = Spinning.
Proof.
  intros Hpool Hne Hall.
  assert (Hn : 0 < len pool).
  { unfold len. destruct pool; [contradiction | simpl; lia]. }
  rewrite select_question_drawing by assumption.
  rewrite redraw_spins; [reflexivity | exact Hall |].
  now apply draw_inside.
Qed.

(** The history a client built by appending what it was served has no
    duplicates and names only questions of the pool. *)
Lemma quiz_history_invariant (previous : list Z) :
  quiz_history pool previous ->
  NoDup previous /\ incl previous (map Question.id pool).
Proof.
  induction 1 as [|previous entropy fuel q _ [Hnodup Hincl] Hserved].
  - split; [constructor | intros i []].
  - assert (Hle : (List.length previous <= List.length pool)%nat).
    { rewrite <- (length_map Question.id pool).
      now apply NoDup_incl_length. }
    assert (Hlt : (List.length previous < List.length pool)%nat).
    { destruct (Nat.eq_dec (List.length previous) (List.length pool))
        as [Heq|]; [exfalso | lia].
      destruct pool as [|q0 pool'] eqn:Hpool.
      - destruct previous; [|discriminate]. discriminate Hserved.
      - rewrite <- Hpool in *.
        rewrite select_question_exhausted in Hserved.
        + discriminate Hserved.
        + unfold len. rewrite Hpool. simpl. lia.
        + unfold len. lia. }
    pose proof (select_question_outcome pool previous entropy fuel Hlt) as Hq.
    rewrite Hserved in Hq. destruct Hq as [q' [Hin [Hnew Hbody]]].
    assert (Hid : Question.id q = Question.id q') by (now injection Hbody).
    rewrite Hid. split.
    + apply NoDup_app; [exact Hnodup | repeat constructor; easy|].
      intros i Hi [<-|[]]. contradiction.
    + apply incl_app; [exact Hincl|].
      intros i [<-|[]]. now apply in_map.
Qed.

(** X25. Across a quiz in which the client appends each served id to the
    history, the history never holds an id twice, holds only ids of the
    pool, and is never longer than the pool. *)
Theorem quiz_history_never_repeats (previous : list Z) :
  quiz_history pool previous ->
  NoDup previous
  /\ incl previous (map Question.id pool)
  /\ (List.length previous <= List.length pool)%nat.
Proof.
  intros H. destruct (quiz_history_invariant _ H) as [Hnodup Hincl].
  repeat split; try assumption.
  rewrite <- (length_map Question.id pool). now apply NoDup_incl_length.
Qed.

(** X26. Such a quiz on a pool that is not empty ends in the exhausted body
    when the history is as long as the pool, and by then every question of
    the pool was served. *)
Theorem quiz_history_ends_exhausted (previous : list Z) :
  quiz_history pool previous ->
  pool <> [] ->
  List.length previous = List.length pool ->
  (forall entropy fuel,
     select_question pool previous entropy fuel = Return exhausted_body)
  /\ (forall q, In q pool -> In (Question.id q) previous).
Proof.
  intros H Hpool Hlen. destruct (quiz_history_invariant _ H) as [Hnodup Hincl].
  split.
  - intros entropy fuel. apply select_question_exhausted.
    + unfold len. destruct pool; [contradiction | simpl; lia].
    + unfold len. lia.
  - intros q Hq.
    assert (Hback : incl (map Question.id pool) previous).
    { apply (NoDup_length_incl Hnodup); [|exact Hincl].
      rewrite length_map. lia. }
    apply Hback. now apply in_map.
Qed.

End HistoryFacts.

(** ** The quiz handler as a whole *)



Section QuizHandlerFacts.

Variable int_of_text : string -> option Z.

(** X27. A quiz whose category id does not convert with [int] raises
    [ValueError], for the descriptor "click" like for any other, before any
    question is read. *)
Theorem generate_quiz_unreadable_id
    (store : Store) (body : Quiz.body) (text : string)
    (entropy : nat -> Z) (fuel : nat) :
  Quiz.id (Quiz.quiz_category body) = Quiz.IdText text ->
  int_of_text text = None ->
  generate_quiz int_of_text store body entropy fuel = Raise ValueError.
Proof.
  intros Hid Hint. unfold generate_quiz, quiz_pool, py_int.
  now rewrite Hid, Hint.
Qed.

(** X28. Whatever a quiz of a category answers with is the exhausted body
    or a stored question whose category is the requested id plus 1; a
    question of the requested id itself is never served. *)
Theorem generate_quiz_serves_next_category
    (store : Store) (body : Quiz.body) (c : Z)
    (entropy : nat -> Z) (fuel : nat) (response : json) :
  py_int int_of_text (Quiz.id (Quiz.quiz_category body)) = Return c ->
  Quiz.type (Quiz.quiz_category body) <> "click" ->
  generate_quiz int_of_text store body entropy fuel = Return response ->
  response = exhausted_body
  \/ exists q, In q (questions store)
               /\ Question.category q = c + 1
               /\ response = served_body (Quiz.previous_questions body) q.
Proof.
  intros Hid Htype. unfold generate_quiz, quiz_pool. rewrite Hid.
  cbn [bind]. apply String.eqb_neq in Htype. rewrite Htype. cbn [bind].
  set (pool := questions_by_category (py_str (c + 1)) store).
  unfold select_question.
  destruct (randint 1 (len pool) (entropy 0%nat)) as [r0| | |];
    cbn [bind]; try discriminate.
  destruct (len pool =? len (Quiz.previous_questions body)); cbn [negb].
  - intros [= <-]. now left.
  - destruct (redraw pool _ entropy fuel 1 r0) as [r| | |];
      cbn [bind]; try discriminate.
    destruct (py_index pool (r - 1)) as [q| | |] eqn:Hq;
      cbn [bind]; try discriminate.
    intros [= <-]. right. exists q.
    apply py_index_member in Hq. unfold pool, questions_by_category in Hq.
    apply filter_In in Hq as [Hin Hcat]. apply String.eqb_eq in Hcat.
    apply py_str_injective in Hcat. repeat split; assumption.
Qed.


End QuizHandlerFacts.

(** * More properties on the sample data *)

Lemma sample_store_wf : store_wf sample_store.
Proof.
  split; [|repeat constructor].
  simpl. repeat constructor; simpl; intuition discriminate.
Qed.

Example listing_of_the_sample_store :
  get_questions decimal_int sample_store (page_request "1") None
  = Return (listing_body (questions sample_store)
                         (map Question.format (questions sample_store))
                         ["science"] ["1"; "3"]).
Proof. reflexivity. Qed.

Example listing_past_the_last_page :
  get_questions decimal_int sample_store (page_request "5") None = Abort 404.
Proof. reflexivity. Qed.

Lemma paginate_questions_page_length_witness :
  len (paginate_questions decimal_int (page_request "2") (numbered 12)) = 2.
Proof.
  exact (paginate_questions_page_length decimal_int (page_request "2")
           (numbered 12) ltac:(vm_compute; discriminate)).
Defined.

Lemma paginate_questions_default_page_witness :
  requested_page decimal_int (page_request "abc") = 1
  /\ paginate_questions decimal_int (page_request "abc") (numbered 12)
     = firstn 10 (map Question.format (numbered 12)).
Proof.
  apply (paginate_questions_default_page decimal_int (page_request "abc")
           (numbered 12)).
  right. exists "abc". split; reflexivity.
Defined.

Lemma paginate_questions_nonpositive_page_witness :
  paginate_questions decimal_int (page_request "-1") (numbered 25)
  = rev (firstn 10 (skipn 10 (rev (map Question.format (numbered 25))))).
Proof.
  exact (paginate_questions_nonpositive_page decimal_int (page_request "-1")
           (numbered 25) 1 eq_refl).
Defined.

Lemma get_questions_success_shows_questions_witness :
  exists first rest,
    paginate_questions decimal_int (page_request "1") (questions sample_store)
    = first :: rest
    /\ field "questions"
         (listing_body (questions sample_store)
                       (map Question.format (questions sample_store))
                       ["science"] ["1"; "3"])
       = Some (JArr (map formatted_json (first :: rest)))
    /\ field "total_questions"
         (listing_body (questions sample_store)
                       (map Question.format (questions sample_store))
                       ["science"] ["1"; "3"])
       = Some (JNum (len (questions sample_store)))
    /\ field "current_category"
         (listing_body (questions sample_store)
                       (map Question.format (questions sample_store))
                       ["science"] ["1"; "3"])
       = Some (JArr (map JStr (list_current_categories (first :: rest)))).
Proof.
  apply (get_questions_success_shows_questions decimal_int sample_store
           (page_request "1") None).
  - reflexivity.
  - vm_compute. discriminate.
Defined.

Lemma get_questions_page_zero_witness :
  get_questions decimal_int empty_store (page_request "0") None
  = Return (listing_body [] [] ["science"] []).
Proof.
  apply (get_questions_page_zero decimal_int empty_store (page_request "0")
           None); reflexivity.
Defined.

Lemma get_questions_by_category_past_the_end_witness :
  get_questions_by_category decimal_int sample_store (page_request "2") "1"
  = Return (listing_body [question_1; question_2] [] ["science"] []).
Proof.
  apply (get_questions_by_category_past_the_end decimal_int sample_store
           (page_request "2") "1" science).
  - reflexivity.
  - vm_compute. discriminate.
  - vm_compute. discriminate.
Defined.

Lemma get_questions_by_category_one_category_witness :
  exists shown,
    shown = paginate_questions decimal_int (page_request "1")
              (questions_by_category "1" sample_store)
    /\ (forall q, In q shown -> Question.f_category q = "1")
    /\ field "questions"
         (listing_body [question_1; question_2]
            [Question.format question_1; Question.format question_2]
            ["science"] ["1"])
       = Some (JArr (map formatted_json shown))
    /\ field "current_category"
         (listing_body [question_1; question_2]
            [Question.format question_1; Question.format question_2]
            ["science"] ["1"])
       = Some (JArr match shown with
                    | [] => []
                    | _ :: _ => [JStr "1"]
                    end)
    /\ field "total_questions"
         (listing_body [question_1; question_2]
            [Question.format question_1; Question.format question_2]
            ["science"] ["1"])
       = Some (JNum (len (questions_by_category "1" sample_store))).
Proof.
  apply (get_questions_by_category_one_category decimal_int sample_store
           (page_request "1") "1").
  reflexivity.
Defined.

Lemma delete_question_removes_one_witness :
  exists store',
    delete_question sample_store "2"
    = (Return (JObj [ ("success", JBool true);
                      ("message", JStr "question deleted") ]), store')
    /\ questions store'
       = filter (fun x => negb (Question.id x =? 2)) (questions sample_store)
    /\ (forall x, In x (questions store')
                  <-> In x (questions sample_store) /\ x <> question_2)
    /\ S (List.length (questions store')) = 4%nat
    /\ categories store' = [science]
    /\ next_id store' = 5.
Proof.
  apply (delete_question_removes_one sample_store question_2).
  - exact sample_store_wf.
  - right. now left.
Defined.

Lemma delete_question_twice_witness :
  delete_question (snd (delete_question sample_store "2")) "2"
  = (Abort 404, snd (delete_question sample_store "2")).
Proof.
  apply (delete_question_twice sample_store question_2).
  right. now left.
Defined.

Lemma post_question_keeps_keys_witness :
  store_wf (snd (post_question ascii_lower sample_store
                               (create_body "Q5?" "A5" 1 1))).
Proof.
  apply (post_question_keeps_keys ascii_lower sample_store
           (create_body "Q5?" "A5" 1 1)).
  exact sample_store_wf.
Defined.

Lemma delete_question_keeps_keys_witness :
  store_wf (snd (delete_question sample_store "2")).
Proof.
  apply (delete_question_keeps_keys sample_store "2"). exact sample_store_wf.
Defined.

Lemma quiz_pool_distinct_ids_witness :
  NoDup (map Question.id [question_3; question_4]).
Proof.
  apply (quiz_pool_distinct_ids decimal_int sample_store
           (quiz_body [] (Quiz.IdText "2") "Art")).
  - exact sample_store_wf.
  - reflexivity.
Defined.

Lemma created_question_is_found_witness :
  exists earlier,
    filtered_questions ascii_lower "What is Q6?"
      (questions (snd (post_question ascii_lower sample_store
                         (create_body "What is Q6?" "A6" 2 1))))
    = earlier ++ [Question.make 5 "What is Q6?" "A6" 2 1]
    /\ fst (post_question ascii_lower
              (snd (post_question ascii_lower sample_store
                      (create_body "What is Q6?" "A6" 2 1)))
              (search_body "What is Q6?"))
       = Return (JObj
           [ ("success", JBool true);
             ("questions",
              JArr (map (fun q => formatted_json (Question.format q))
                        (earlier ++ [Question.make 5 "What is Q6?" "A6" 2 1])));
             ("total_questions",
              JNum (len (earlier ++ [Question.make 5 "What is Q6?" "A6" 2 1])));
             ("current_category",
              JArr (map (fun q => JStr (py_str (Question.category q)))
                        (earlier
                         ++ [Question.make 5 "What is Q6?" "A6" 2 1]))) ]).
Proof.
  apply (created_question_is_found ascii_lower sample_store
           (create_body "What is Q6?" "A6" 2 1) (search_body "What is Q6?")
           "What is Q6?" "A6" 2 1);
    try reflexivity; discriminate.
Defined.

Lemma create_then_delete_witness :
  exists store'',
    delete_question
      (snd (post_question ascii_lower sample_store
                          (create_body "Q5?" "A5" 1 99)))
      "5"
    = (Return (JObj [ ("success", JBool true);
                      ("message", JStr "question deleted") ]), store'')
    /\ questions store'' = questions sample_store
    /\ categories store'' = categories sample_store
    /\ next_id store'' = 6.
Proof.
  apply (create_then_delete ascii_lower sample_store
           (create_body "Q5?" "A5" 1 99) "Q5?" "A5" 1 99);
    try reflexivity; try discriminate.
  exact sample_store_wf.
Defined.

Lemma quiz_selector_spins_on_stale_history_witness :
  select_question [question_1] [1; 99] counting 5 = Spinning.
Proof.
  apply (quiz_selector_spins_on_stale_history [question_1] [1; 99] counting 5).
  - discriminate.
  - vm_compute. discriminate.
  - intros q [<-|[]]. now left.
Defined.

Lemma quiz_history_never_repeats_witness :
  NoDup [1]
  /\ incl [1] (map Question.id [question_1; question_2])
  /\ (List.length [1] <= List.length [question_1; question_2])%nat.
Proof.
  apply (quiz_history_never_repeats [question_1; question_2] [1]).
  exact (history_step [question_1; question_2] [] counting 0 question_1
           (history_start _) eq_refl).
Defined.

Lemma quiz_history_ends_exhausted_witness :
  (forall entropy fuel,
     select_question [question_1] [1] entropy fuel = Return exhausted_body)
  /\ (forall q, In q [question_1] -> In (Question.id q) [1]).
Proof.
  apply (quiz_history_ends_exhausted [question_1] [1]).
  - exact (history_step [question_1] [] counting 0 question_1
             (history_start _) eq_refl).
  - discriminate.
  - reflexivity.
Defined.

Lemma generate_quiz_unreadable_id_witness :
  generate_quiz decimal_int sample_store
                (quiz_body [] (Quiz.IdText "abc") "click") counting 0
  = Raise ValueError.
Proof.
  apply (generate_quiz_unreadable_id decimal_int sample_store
           (quiz_body [] (Quiz.IdText "abc") "click") "abc" counting 0);
    reflexivity.
Defined.

Lemma generate_quiz_serves_next_category_witness :
  served_body [] question_1 = exhausted_body
  \/ exists q, In q (questions sample_store)
               /\ Question.category q = 0 + 1
               /\ served_body [] question_1 = served_body [] q.
Proof.
  apply (generate_quiz_serves_next_category decimal_int sample_store
           (quiz_body [] (Quiz.IdText "0") "Science") 0 counting 0).
  - reflexivity.
  - discriminate.
  - reflexivity.
Defined.

